(** * Python-WAPI: a client of the WEDOS DNS management API

    A shallow embedding of [wedos_api/api.py] and [wedos_api/models.py].

    Python values are modelled as the interpreter has them: a [str] is a
    sequence of Unicode code points, an [int] is unbounded, a decoded JSON
    document is a tree of dictionaries, lists and scalars, and an exception
    unwinds the call.  The client object lives in a store, because a domain
    handle keeps a reference to the client that created it.  The remote
    server and the local clock are part of the world and may answer
    anything. *)

From Stdlib Require Import Bool Ascii String List NArith ZArith Lia.
Import ListNotations.

Set Warnings "-register-all".
Local Open Scope N_scope.

(** ** Text *)

(** A Python [str]: its code points, in order. *)
Definition pystr := list N.

(** A literal of the source, written with ASCII characters only. *)
Definition lit (s : string) : pystr :=
  map N_of_ascii (list_ascii_of_string s).

Fixpoint str_eqb (a b : pystr) : bool :=
  match a, b with
  | [], [] => true
  | x :: a', y :: b' => (x =? y) && str_eqb a' b'
  | _, _ => false
  end.

(** [s.startswith(p)] *)
Fixpoint startswith (p s : pystr) : bool :=
  match p, s with
  | [], _ => true
  | x :: p', y :: s' => (x =? y) && startswith p' s'
  | _ :: _, [] => false
  end.

(** [sep.join(parts)] *)
Fixpoint join (sep : pystr) (parts : list pystr) : pystr :=
  match parts with
  | [] => []
  | [p] => p
  | p :: rest => p ++ sep ++ join sep rest
  end.

Definition is_ascii (c : N) : bool := c <? 128.

Definition is_digit (c : N) : bool := (48 <=? c) && (c <=? 57).

Definition digit_value (c : N) : Z := Z.of_N (c - 48).

(** Decimal rendering of an integer, as [str(n)] and ["%d"] print it. *)
Fixpoint uint_digits (u : Decimal.uint) : pystr :=
  match u with
  | Decimal.Nil => []
  | Decimal.D0 r => 48 :: uint_digits r
  | Decimal.D1 r => 49 :: uint_digits r
  | Decimal.D2 r => 50 :: uint_digits r
  | Decimal.D3 r => 51 :: uint_digits r
  | Decimal.D4 r => 52 :: uint_digits r
  | Decimal.D5 r => 53 :: uint_digits r
  | Decimal.D6 r => 54 :: uint_digits r
  | Decimal.D7 r => 55 :: uint_digits r
  | Decimal.D8 r => 56 :: uint_digits r
  | Decimal.D9 r => 57 :: uint_digits r
  end.

Definition str_of_N (n : N) : pystr := uint_digits (N.to_uint n).

Definition str_of_Z (z : Z) : pystr :=
  match z with
  | Zneg p => 45 :: str_of_N (Npos p)
  | _ => str_of_N (Z.to_N z)
  end.

(** ** Exceptions *)

(** The exceptions the module can raise or let through.  [WAPIError] is the
    module's own class; [TransportError] stands for whatever
    [requests.post(...).json()] raises (connection, TLS, a body that is not
    JSON), described by a text; the others are the interpreter's. *)
Inductive exn : Type :=
| WAPIError (msg : pystr)
| KeyError (key : pystr)
| TypeError
| AttributeError
| ValueError
| OverflowError
| UnicodeEncodeError
| TransportError (what : pystr).

Definition is_WAPIError (e : exn) : bool :=
  match e with WAPIError _ => true | _ => false end.

Inductive result (A : Type) : Type :=
| Ok (a : A)
| Raise (e : exn).

Arguments Ok {A} a.
Arguments Raise {A} e.

Definition rbind {A B} (r : result A) (k : A -> result B) : result B :=
  match r with
  | Ok a => k a
  | Raise e => Raise e
  end.

Declare Scope result_scope.
Delimit Scope result_scope with result.
Notation "x <- r ;; k" := (rbind r (fun x => k))
  (at level 61, r at next level, right associativity) : result_scope.

(** ** Decoded JSON documents *)

(** [int(f)] of a float: its integer part, or no integer at all. *)
Inductive float_to_int : Type :=
| Truncated (z : Z)
| Infinite
| NotANumber.

(** A Python [float], by what the module can observe of it: its [str()], its
    rendering by [json.dumps], its conversion by [int()] and its truth
    value. *)
Record pyfloat : Type := {
  float_repr : pystr;
  float_json : pystr;
  float_int : float_to_int;
  float_truthy : bool
}.

(** What [json.loads] builds.  A dictionary keeps its keys in insertion
    order and holds each key once. *)
Inductive json : Type :=
| JNull
| JBool (b : bool)
| JInt (n : Z)
| JFloat (f : pyfloat)
| JStr (s : pystr)
| JList (xs : list json)
| JObj (kvs : list (pystr * json)).

Fixpoint dict_get (kvs : list (pystr * json)) (k : pystr) : option json :=
  match kvs with
  | [] => None
  | (k', v) :: rest => if str_eqb k' k then Some v else dict_get rest k
  end.

(** [v[k]] for a string key [k]. *)
Definition subscript (v : json) (k : pystr) : result json :=
  match v with
  | JObj kvs =>
      match dict_get kvs k with
      | Some x => Ok x
      | None => Raise (KeyError k)
      end
  | _ => Raise TypeError
  end.

(** [v.get(k, default)] *)
Definition get_default (v : json) (k : pystr) (default : json) : result json :=
  match v with
  | JObj kvs =>
      match dict_get kvs k with
      | Some x => Ok x
      | None => Ok default
      end
  | _ => Raise AttributeError
  end.

(** [v.values()] *)
Definition dict_values (v : json) : result (list json) :=
  match v with
  | JObj kvs => Ok (map snd kvs)
  | _ => Raise AttributeError
  end.

(** [iter(v)]: the items a [for] loop or [map] goes through. *)
Definition py_iter (v : json) : result (list json) :=
  match v with
  | JList xs => Ok xs
  | JObj kvs => Ok (map (fun kv => JStr (fst kv)) kvs)
  | JStr s => Ok (map (fun c => JStr [c]) s)
  | _ => Raise TypeError
  end.

(** [bool(v)], the test of [if not v]. *)
Definition truthy (v : json) : bool :=
  match v with
  | JNull => false
  | JBool b => b
  | JInt n => negb (Z.eqb n 0)
  | JFloat f => float_truthy f
  | JStr s => match s with [] => false | _ => true end
  | JList xs => match xs with [] => false | _ => true end
  | JObj kvs => match kvs with [] => false | _ => true end
  end.

(** [v == s] for a string [s]. *)
Definition eq_str (v : json) (s : pystr) : bool :=
  match v with
  | JStr t => str_eqb t s
  | _ => false
  end.

(** ** [json.dumps] with its defaults *)

Definition hex_digit (d : N) : N := if d <? 10 then 48 + d else 87 + d.

(** [\uXXXX] *)
Definition u_escape (c : N) : pystr :=
  [92; 117; hex_digit (N.shiftr c 12 mod 16); hex_digit (N.shiftr c 8 mod 16);
   hex_digit (N.shiftr c 4 mod 16); hex_digit (c mod 16)].

Definition json_escape_char (c : N) : pystr :=
  if c =? 34 then [92; 34]
  else if c =? 92 then [92; 92]
  else if c =? 10 then [92; 110]
  else if c =? 13 then [92; 114]
  else if c =? 9 then [92; 116]
  else if c =? 8 then [92; 98]
  else if c =? 12 then [92; 102]
  else if (32 <=? c) && (c <=? 126) then [c]
  else if c <? 0x10000 then u_escape c
  else
    let v := c - 0x10000 in
    u_escape (0xD800 + N.shiftr v 10) ++ u_escape (0xDC00 + N.land v 0x3FF).

Definition json_string (s : pystr) : pystr :=
  [34] ++ flat_map json_escape_char s ++ [34].

Fixpoint json_dumps (v : json) : pystr :=
  match v with
  | JNull => lit "null"
  | JBool true => lit "true"
  | JBool false => lit "false"
  | JInt n => str_of_Z n
  | JFloat f => float_json f
  | JStr s => json_string s
  | JList xs => lit "[" ++ join (lit ", ") (map json_dumps xs) ++ lit "]"
  | JObj kvs =>
      lit "{"
      ++ join (lit ", ")
           (map (fun kv => json_string (fst kv) ++ lit ": " ++ json_dumps (snd kv)) kvs)
      ++ lit "}"
  end.

(** ** [str.encode('utf8')] *)

Definition utf8_char (c : N) : result (list N) :=
  if c <? 0x80 then Ok [c]
  else if c <? 0x800 then
    Ok [N.lor 0xC0 (N.shiftr c 6); N.lor 0x80 (N.land c 0x3F)]
  else if (0xD800 <=? c) && (c <=? 0xDFFF) then Raise UnicodeEncodeError
  else if c <? 0x10000 then
    Ok [N.lor 0xE0 (N.shiftr c 12);
        N.lor 0x80 (N.land (N.shiftr c 6) 0x3F);
        N.lor 0x80 (N.land c 0x3F)]
  else if c <? 0x110000 then
    Ok [N.lor 0xF0 (N.shiftr c 18);
        N.lor 0x80 (N.land (N.shiftr c 12) 0x3F);
        N.lor 0x80 (N.land (N.shiftr c 6) 0x3F);
        N.lor 0x80 (N.land c 0x3F)]
  else Raise UnicodeEncodeError.

Fixpoint encode_utf8 (s : pystr) : result (list N) :=
  match s with
  | [] => Ok []
  | c :: rest =>
      match utf8_char c with
      | Raise e => Raise e
      | Ok bs =>
          match encode_utf8 rest with
          | Raise e => Raise e
          | Ok more => Ok (bs ++ more)
          end
      end
  end.

(** ** SHA-1 ([hashlib.sha1]), over bytes, with 32-bit words *)

Module SHA1.

Definition w32 (x : N) : N := N.land x 0xFFFFFFFF.

Definition add32 (a b : N) : N := w32 (a + b).

Definition rotl32 (n x : N) : N :=
  w32 (N.lor (N.shiftl x n) (N.shiftr x (32 - n))).

Definition not32 (x : N) : N := N.lxor x 0xFFFFFFFF.

(** The message followed by the bit 1, zeros up to 56 modulo 64 bytes, and
    the length in bits as a 64-bit big-endian number. *)
Definition be_bytes (width : nat) (x : N) : list N :=
  map (fun i => N.land (N.shiftr x (8 * N.of_nat i)) 0xFF) (rev (seq 0 width)).

Definition pad (msg : list N) : list N :=
  let len := N.of_nat (length msg) in
  let zeros := N.to_nat ((119 - len mod 64) mod 64) in
  msg ++ [0x80] ++ repeat 0 zeros ++ be_bytes 8 (8 * len).

Fixpoint be_words (bs : list N) : list N :=
  match bs with
  | b0 :: b1 :: b2 :: b3 :: rest =>
      N.lor (N.shiftl b0 24) (N.lor (N.shiftl b1 16) (N.lor (N.shiftl b2 8) b3))
      :: be_words rest
  | _ => []
  end.

(** The message schedule, latest word first: [ws] holds at least sixteen
    words and grows by one word per step. *)
Fixpoint extend (steps : nat) (ws : list N) : list N :=
  match steps with
  | O => ws
  | S steps' =>
      let w := rotl32 1 (N.lxor (nth 2 ws 0)
                          (N.lxor (nth 7 ws 0) (N.lxor (nth 13 ws 0) (nth 15 ws 0)))) in
      extend steps' (w :: ws)
  end.

Definition schedule (block : list N) : list N := rev (extend 64 (rev block)).

Definition f (t b c d : N) : N :=
  if t <? 20 then N.lor (N.land b c) (N.land (not32 b) d)
  else if t <? 40 then N.lxor b (N.lxor c d)
  else if t <? 60 then N.lor (N.land b c) (N.lor (N.land b d) (N.land c d))
  else N.lxor b (N.lxor c d).

Definition k (t : N) : N :=
  if t <? 20 then 0x5A827999
  else if t <? 40 then 0x6ED9EBA1
  else if t <? 60 then 0x8F1BBCDC
  else 0xCA62C1D6.

Record state : Type := { ha : N; hb : N; hc : N; hd : N; he : N }.

Definition init : state :=
  {| ha := 0x67452301; hb := 0xEFCDAB89; hc := 0x98BADCFE;
     hd := 0x10325476; he := 0xC3D2E1F0 |}.

Definition round (s : state) (tw : N * N) : state :=
  let (t, w) := tw in
  let temp :=
    add32 (add32 (add32 (add32 (rotl32 5 (ha s)) (f t (hb s) (hc s) (hd s))) (he s)) (k t)) w in
  {| ha := temp; hb := ha s; hc := rotl32 30 (hb s); hd := hc s; he := hd s |}.

Definition compress (h : state) (block : list N) : state :=
  let ws := schedule block in
  let s := fold_left round (combine (map N.of_nat (seq 0 80)) ws) h in
  {| ha := add32 (ha h) (ha s); hb := add32 (hb h) (hb s); hc := add32 (hc h) (hc s);
     hd := add32 (hd h) (hd s); he := add32 (he h) (he s) |}.

Fixpoint blocks (n : nat) (ws : list N) (h : state) : state :=
  match n with
  | O => h
  | S n' => blocks n' (skipn 16 ws) (compress h (firstn 16 ws))
  end.

Definition digest (msg : list N) : state :=
  let ws := be_words (pad msg) in
  blocks (Nat.div (length ws) 16) ws init.

(** Eight hexadecimal digits of a word, most significant first, lower case. *)
Definition hex8 (w : N) : pystr :=
  map (fun i => hex_digit (N.land (N.shiftr w (4 * N.of_nat i)) 0xF)) (rev (seq 0 8)).

(** [sha1(msg).hexdigest()] *)
Definition hexdigest (msg : list N) : pystr :=
  let h := digest msg in
  hex8 (ha h) ++ hex8 (hb h) ++ hex8 (hc h) ++ hex8 (hd h) ++ hex8 (he h).

End SHA1.

(** ** [int(s)] on ASCII text *)

Definition in_range (lo hi c : N) : bool := (lo <=? c) && (c <=? hi).

(** The blanks [int] skips around a number: tab to carriage return, space. *)
Definition is_blank (c : N) : bool := in_range 9 13 c || (c =? 32).

Fixpoint lstrip (s : pystr) : pystr :=
  match s with
  | c :: rest => if is_blank c then lstrip rest else s
  | [] => []
  end.

Definition strip (s : pystr) : pystr := rev (lstrip (rev (lstrip s))).

(** Digits, with single underscores allowed between two digits. *)
Fixpoint int_digits (acc : Z) (after_digit : bool) (s : pystr) : option Z :=
  match s with
  | [] => if after_digit then Some acc else None
  | c :: rest =>
      if is_digit c then int_digits (10 * acc + digit_value c)%Z true rest
      else if (c =? 95) && after_digit then int_digits acc false rest
      else None
  end.

Definition int_ascii (s : pystr) : result Z :=
  let body := strip s in
  let parsed :=
    match body with
    | 43 :: ds => int_digits 0%Z false ds
    | 45 :: ds => option_map Z.opp (int_digits 0%Z false ds)
    | _ => int_digits 0%Z false body
    end in
  match parsed with
  | Some z => Ok z
  | None => Raise ValueError
  end.

(** ** [datetime] *)

Record datetime : Type := {
  year : Z; month : Z; day : Z;
  hour : Z; minute : Z; second : Z; microsecond : Z
}.

Definition is_leap (y : Z) : bool :=
  ((y mod 4 =? 0) && negb (y mod 100 =? 0) || (y mod 400 =? 0))%Z.

Definition days_in_month (y m : Z) : Z :=
  (if m =? 2 then (if is_leap y then 29 else 28)
   else if (m =? 4) || (m =? 6) || (m =? 9) || (m =? 11) then 30
   else 31)%Z.

(** *** [datetime.strptime(s, '%Y-%m-%d %H:%M:%S')] on ASCII text

    The format compiles to the regular expression
    [(\d\d\d\d)-(1[0-2]|0[1-9]|[1-9])-(3[0-1]|[1-2]\d|0[1-9]|[1-9]| [1-9])\s+(2[0-3]|[0-1]\d|\d):([0-5]\d|\d):(6[0-1]|[0-5]\d|\d)],
    matched at the start of the text; the first match in the order of the
    alternatives is taken, and the whole text must be consumed. *)

(** A matcher yields its matches in the order a backtracking engine tries
    them: the matched text and what is left. *)
Definition matcher := pystr -> list (pystr * pystr).

(** One character class after the other. *)
Fixpoint classes (cs : list (N -> bool)) (s : pystr) : option (pystr * pystr) :=
  match cs with
  | [] => Some ([], s)
  | p :: cs' =>
      match s with
      | c :: rest =>
          if p c then
            match classes cs' rest with
            | Some (m, r) => Some (c :: m, r)
            | None => None
            end
          else None
      | [] => None
      end
  end.

(** [a1|a2|...] *)
Definition alternatives (alts : list (list (N -> bool))) : matcher :=
  fun s =>
    flat_map (fun a => match classes a s with Some mr => [mr] | None => [] end) alts.

(** [\s]: the blanks of a [str] pattern. *)
Definition is_space (c : N) : bool := in_range 9 13 c || in_range 28 32 c.

(** [\s+], greedy: the longest run first. *)
Fixpoint spaces (s : pystr) : list (pystr * pystr) :=
  match s with
  | c :: rest =>
      if is_space c then
        map (fun mr => (c :: fst mr, snd mr)) (spaces rest) ++ [([c], rest)]
      else []
  | [] => []
  end.

Definition char (c : N) : N -> bool := N.eqb c.
Definition digit : N -> bool := is_digit.
Definition range (lo hi : N) : N -> bool := in_range lo hi.

Definition re_Y : matcher := alternatives [[digit; digit; digit; digit]].
Definition re_m : matcher :=
  alternatives [[char 49; range 48 50]; [char 48; range 49 57]; [range 49 57]].
Definition re_d : matcher :=
  alternatives [[char 51; range 48 49]; [range 49 50; digit]; [char 48; range 49 57];
                [range 49 57]; [char 32; range 49 57]].
Definition re_H : matcher :=
  alternatives [[char 50; range 48 51]; [range 48 49; digit]; [digit]].
Definition re_M : matcher := alternatives [[range 48 53; digit]; [digit]].
Definition re_S : matcher :=
  alternatives [[char 54; range 48 49]; [range 48 53; digit]; [digit]].
Definition re_lit (c : N) : matcher := alternatives [[char c]].

(** [acc] followed by [p]: every match so far is continued by every match of
    [p] on what it left, earlier choices first; [keep] says whether [p] is a
    group of the pattern. *)
Definition and_then (keep : bool) (p : matcher)
    (acc : list (list pystr * pystr)) : list (list pystr * pystr) :=
  flat_map
    (fun gr =>
       map (fun mr => (if keep then fst gr ++ [fst mr] else fst gr, snd mr))
         (p (snd gr)))
    acc.

(** The groups of every match of the whole pattern, in order, each with the
    text left over. *)
Definition re_date (s : pystr) : list (list pystr * pystr) :=
  and_then true re_S (and_then false (re_lit 58)
  (and_then true re_M (and_then false (re_lit 58)
  (and_then true re_H (and_then false spaces
  (and_then true re_d (and_then false (re_lit 45)
  (and_then true re_m (and_then false (re_lit 45)
  (and_then true re_Y [([], s)])))))))))).

Definition group_value (g : pystr) : Z :=
  match int_ascii g with
  | Ok z => z
  | Raise _ => 0%Z
  end.

Definition strptime_ascii (s : pystr) : result datetime :=
  match re_date s with
  | ([gY; gm; gd; gH; gM; gS], []) :: _ =>
      let y := group_value gY in
      let m := group_value gm in
      let d := group_value gd in
      let sec := group_value gS in
      if ((1 <=? y) && (d <=? days_in_month y m) && (sec <=? 59))%Z then
        Ok {| year := y; month := m; day := d;
              hour := group_value gH; minute := group_value gM; second := sec;
              microsecond := 0%Z |}
      else Raise ValueError
  | _ => Raise ValueError
  end.

(** Two digits, zero-padded: [%m], [%d], [%H], [%M], [%S]. *)
Definition pad2 (n : Z) : pystr :=
  if (n <? 10)%Z then 48 :: str_of_Z n else str_of_Z n.

(** ** What the platform supplies beyond ASCII

    The ASCII behaviour of [str.upper], [int], [strptime] and [strftime] is
    computed above and below.  Their behaviour on text with other code
    points is the Unicode database's, the rendering of a year below 1000 by
    [%Y] is the C library's, and [repr] is the interpreter's: these are
    taken as they come. *)
Class Platform : Type := {
  (** [c.upper()] for a code point [c] outside ASCII *)
  upper_other : N -> pystr;
  (** [int(s)] for a text [s] that is not all ASCII, [None] for a
      [ValueError] *)
  int_other : pystr -> option Z;
  (** [strptime(s, date_format)] for a text [s] that is not all ASCII,
      [None] for a [ValueError] *)
  strptime_other : pystr -> option datetime;
  (** [%Y] of a year below 1000 *)
  strftime_year : Z -> pystr;
  (** [repr(v)] *)
  repr : json -> pystr
}.

(** A platform that leaves non-ASCII text alone; the examples run on it. *)
Definition plain_platform : Platform := {|
  upper_other := fun c => [c];
  int_other := fun _ => None;
  strptime_other := fun _ => None;
  strftime_year := str_of_Z;
  repr := json_dumps
|}.

(** ** models.py *)

Module WAPIRequest.
Record t : Type := {
  user : pystr;
  auth : pystr;
  command : pystr;
  command_id : option pystr;
  data : json;
  test : bool
}.
End WAPIRequest.

Module WAPIResponse.
Record t : Type := {
  code : json;
  result : json;
  timestamp : json;
  command_id : json;
  server_command_id : json;
  command : json;
  data : json;
  test : bool
}.
End WAPIResponse.

Module WAPIDomainStatus.
Inductive t : Type := ACTIVE.

Definition value (s : t) : pystr :=
  match s with ACTIVE => lit "ACTIVE" end.

(** [__members__.items()], in the order of definition *)
Definition members : list (pystr * t) := [(lit "ACTIVE", ACTIVE)].
End WAPIDomainStatus.

Module WAPIDomainRecordType.
Inductive t : Type := A | AAAA | MX | SSHFP | TXT.

Definition value (r : t) : pystr :=
  match r with
  | A => lit "A"
  | AAAA => lit "AAAA"
  | MX => lit "MX"
  | SSHFP => lit "SSHFP"
  | TXT => lit "TXT"
  end.

Definition members : list (pystr * t) :=
  [(lit "A", A); (lit "AAAA", AAAA); (lit "MX", MX); (lit "SSHFP", SSHFP);
   (lit "TXT", TXT)].
End WAPIDomainRecordType.

Module WAPIDomainRecord.
Record t : Type := {
  id : Z;
  name : json;
  ttl : Z;
  record_type : WAPIDomainRecordType.t;
  content : json;
  changed : datetime;
  author_comment : json
}.
End WAPIDomainRecord.

(** ** The objects of api.py and the world around them *)

(** A reference to a client object. *)
Definition ref := nat.

Module WAPI.
(** The attributes [__init__] sets. *)
Record t : Type := {
  __key : pystr;
  __user : pystr;
  __test_mode : bool
}.
End WAPI.

Module WAPIDomain.
Record t : Type := {
  __api : ref;
  __domain : json;
  __is_primary : option bool;
  __status : option WAPIDomainStatus.t
}.
End WAPIDomain.

(** What the endpoint gives back to one POST: a decoded JSON body, or a
    failure of the transport. *)
Inductive reply : Type :=
| Body (doc : json)
| Failed (what : pystr).

Record world : Type := {
  (** the client objects, by reference *)
  store : ref -> WAPI.t;
  (** the documents posted so far, latest first *)
  posted : list json;
  (** the endpoint: its answer to the latest of the documents posted *)
  server : list json -> reply;
  (** how often the clock was read, and what it shows at each reading *)
  reads : nat;
  clock : nat -> datetime
}.

(** A computation: it ends with a value or an exception, in a new world. *)
Definition M (A : Type) : Type := world -> result A * world.

Definition ret {A} (a : A) : M A := fun w => (Ok a, w).

Definition raise {A} (e : exn) : M A := fun w => (Raise e, w).

Definition bind {A B} (c : M A) (k : A -> M B) : M B :=
  fun w =>
    match c w with
    | (Ok a, w') => k a w'
    | (Raise e, w') => (Raise e, w')
    end.

Definition lift {A} (r : result A) : M A := fun w => (r, w).

Declare Scope M_scope.
Delimit Scope M_scope with M.
Notation "x <- c ;; k" := (bind c (fun x => k))
  (at level 61, c at next level, right associativity) : M_scope.

(** [self.attr] *)
Definition deref (self : ref) : M WAPI.t := fun w => (Ok (store w self), w).

(** [self.attr = v], as the function that rebuilds the object *)
Definition assign (self : ref) (f : WAPI.t -> WAPI.t) : M unit :=
  fun w =>
    (Ok tt,
     {| store := fun r => if Nat.eqb r self then f (store w r) else store w r;
        posted := posted w; server := server w;
        reads := reads w; clock := clock w |}).

(** [datetime.now()] *)
Definition now : M datetime :=
  fun w =>
    (Ok (clock w (reads w)),
     {| store := store w; posted := posted w; server := server w;
        reads := S (reads w); clock := clock w |}).

(** [req.post(url, data={'request': json.dumps(doc)}).json()] *)
Definition post (doc : json) : M json :=
  fun w =>
    let w' := {| store := store w; posted := doc :: posted w; server := server w;
                 reads := reads w; clock := clock w |} in
    match server w (doc :: posted w) with
    | Body b => (Ok b, w')
    | Failed what => (Raise (TransportError what), w')
    end.

(** What going through a lazy sequence to its end gives: the items it
    produced, and the exception that stopped it, if one did. *)
Record iteration (T : Type) : Type := {
  items : list T;
  stopped : option exn
}.

Arguments items {T} i.
Arguments stopped {T} i.

Definition empty {T} : iteration T := {| items := []; stopped := None |}.

Definition broken {T} (e : exn) : iteration T := {| items := []; stopped := Some e |}.

(** [map(f, xs)], consumed *)
Fixpoint lazy_map {T U} (f : T -> result U) (xs : list T) : iteration U :=
  match xs with
  | [] => empty
  | x :: rest =>
      match f x with
      | Raise e => broken e
      | Ok y =>
          let more := lazy_map f rest in
          {| items := y :: items more; stopped := stopped more |}
      end
  end.

Section Client.

Context {P : Platform}.

(** ** Builtins that depend on the platform *)

(** [s.upper()] *)
Definition upper_char (c : N) : pystr :=
  if in_range 97 122 c then [c - 32]
  else if is_ascii c then [c]
  else upper_other c.

Definition upper (s : pystr) : pystr := flat_map upper_char s.

(** [v.upper()]: only a [str] has the method. *)
Definition py_upper (v : json) : result pystr :=
  match v with
  | JStr s => Ok (upper s)
  | _ => Raise AttributeError
  end.

(** [int(v)] *)
Definition py_int (v : json) : result Z :=
  match v with
  | JInt n => Ok n
  | JBool b => Ok (if b then 1 else 0)%Z
  | JFloat f =>
      match float_int f with
      | Truncated z => Ok z
      | Infinite => Raise OverflowError
      | NotANumber => Raise ValueError
      end
  | JStr s =>
      if forallb is_ascii s then int_ascii s
      else match int_other s with
           | Some z => Ok z
           | None => Raise ValueError
           end
  | _ => Raise TypeError
  end.

(** [str(v)] *)
Definition py_str (v : json) : pystr :=
  match v with
  | JNull => lit "None"
  | JBool true => lit "True"
  | JBool false => lit "False"
  | JInt n => str_of_Z n
  | JFloat f => float_repr f
  | JStr s => s
  | JList xs => lit "[" ++ join (lit ", ") (map repr xs) ++ lit "]"
  | JObj kvs =>
      lit "{"
      ++ join (lit ", ")
           (map (fun kv => repr (JStr (fst kv)) ++ lit ": " ++ repr (snd kv)) kvs)
      ++ lit "}"
  end.

(** [datetime.strptime(v, WAPI.date_format)]; anything but a [str] is a
    [TypeError]. *)
Definition strptime (v : json) : result datetime :=
  match v with
  | JStr s =>
      if forallb is_ascii s then strptime_ascii s
      else match strptime_other s with
           | Some d => Ok d
           | None => Raise ValueError
           end
  | _ => Raise TypeError
  end.

Definition strftime_Y (y : Z) : pystr :=
  if (1000 <=? y)%Z then str_of_Z y else strftime_year y.

(** [d.strftime(WAPI.date_format)], with [date_format = '%Y-%m-%d %H:%M:%S'] *)
Definition strftime (d : datetime) : pystr :=
  strftime_Y (year d) ++ lit "-" ++ pad2 (month d) ++ lit "-" ++ pad2 (day d)
  ++ lit " " ++ pad2 (hour d) ++ lit ":" ++ pad2 (minute d) ++ lit ":"
  ++ pad2 (second d).

(** [d.strftime('%H')] *)
Definition strftime_H (d : datetime) : pystr := pad2 (hour d).

(** ** class WAPI *)

Local Open Scope M_scope.

Definition WAPI_init (user key : pystr) : WAPI.t :=
  {| WAPI.__key := key; WAPI.__user := user; WAPI.__test_mode := false |}.

Definition set_test_mode (self : ref) (enabled : bool) : M unit :=
  assign self (fun o =>
    {| WAPI.__key := WAPI.__key o; WAPI.__user := WAPI.__user o;
       WAPI.__test_mode := enabled |}).

Definition __get_auth (self : ref) : M pystr :=
  me <- deref self ;;
  key_bytes <- lift (encode_utf8 (WAPI.__key me)) ;;
  t <- now ;;
  bytes <- lift (encode_utf8
                   (WAPI.__user me ++ SHA1.hexdigest key_bytes ++ strftime_H t)) ;;
  ret (SHA1.hexdigest bytes).

(** The document serialised into the form field [request]. *)
Definition envelope (request : WAPIRequest.t) : json :=
  JObj [(lit "request",
         JObj [(lit "command", JStr (WAPIRequest.command request));
               (lit "auth", JStr (WAPIRequest.auth request));
               (lit "user", JStr (WAPIRequest.user request));
               (lit "test", JInt (if WAPIRequest.test request then 1 else 0));
               (lit "data", WAPIRequest.data request);
               (lit "clTRID", JStr (WAPIRequest.command request))])].

(** The tail of [make_request]: from the decoded [response] to the result. *)
Definition check_response (resp : json) : result WAPIResponse.t :=
  (code <- get_default resp (lit "code") (JStr (lit "3000")) ;;
   if startswith (lit "1") (py_str code) then
     code <- subscript resp (lit "code") ;;
     result <- subscript resp (lit "result") ;;
     timestamp <- subscript resp (lit "timestamp") ;;
     clTRID <- subscript resp (lit "clTRID") ;;
     svTRID <- subscript resp (lit "svTRID") ;;
     command <- subscript resp (lit "command") ;;
     data <- get_default resp (lit "data") JNull ;;
     test <- get_default resp (lit "test") (JInt 0) ;;
     test <- py_int test ;;
     Ok {| WAPIResponse.code := code;
           WAPIResponse.result := result;
           WAPIResponse.timestamp := timestamp;
           WAPIResponse.command_id := clTRID;
           WAPIResponse.server_command_id := svTRID;
           WAPIResponse.command := command;
           WAPIResponse.data := data;
           WAPIResponse.test := (test =? 1)%Z |}
   else Raise (WAPIError (lit "WAPI error: " ++ json_dumps resp)))%result.

(** The [WAPIRequest] that [make_request] builds. *)
Definition request_of (me : WAPI.t) (command : pystr) (data : json)
    (command_id : option pystr) (auth : pystr) : WAPIRequest.t :=
  {| WAPIRequest.command := command;
     WAPIRequest.auth := auth;
     WAPIRequest.user := WAPI.__user me;
     WAPIRequest.test := WAPI.__test_mode me;
     WAPIRequest.data := data;
     WAPIRequest.command_id := command_id |}.

Definition make_request (self : ref) (command : pystr) (data : json)
    (command_id : option pystr) : M WAPIResponse.t :=
  auth <- __get_auth self ;;
  me <- deref self ;;
  let request := request_of me command data command_id auth in
  body <- post (envelope request) ;;
  resp <- lift (subscript body (lit "response")) ;;
  lift (check_response resp).

Definition ping (self : ref) : M bool :=
  fun w =>
    match make_request self (lit "ping") JNull None w with
    | (Ok _, w') => (Ok true, w')
    | (Raise (WAPIError _), w') => (Ok false, w')
    | (Raise e, w') => (Raise e, w')
    end.

Definition WAPIDomain_init (domain : json) (api : ref)
    (is_primary : option bool) (status : option WAPIDomainStatus.t) : WAPIDomain.t :=
  {| WAPIDomain.__api := api; WAPIDomain.__domain := domain;
     WAPIDomain.__is_primary := is_primary; WAPIDomain.__status := status |}.

Definition open_domain (self : ref) (domain : pystr) : M WAPIDomain.t :=
  ret (WAPIDomain_init (JStr domain) self None None).

(** The loop [for v, t in members: if v == s: return t]. *)
Fixpoint find_member {T} (members : list (pystr * T)) (s : pystr) : option T :=
  match members with
  | [] => None
  | (v, t) :: rest => if str_eqb v s then Some t else find_member rest s
  end.

Definition __str_to_domain_status (domain_status_str : json)
    : result WAPIDomainStatus.t :=
  (domain_status_str <- py_upper domain_status_str ;;
   match find_member WAPIDomainStatus.members domain_status_str with
   | Some t => Ok t
   | None =>
       Raise (WAPIError (lit "Unknown record type '" ++ domain_status_str ++ lit "'"))
   end)%result.

(** One turn of the loop of [domains]. *)
Definition domain_of_dict (self : ref) (domain_dict : json) : result WAPIDomain.t :=
  (name <- subscript domain_dict (lit "name") ;;
   type <- subscript domain_dict (lit "type") ;;
   status <- subscript domain_dict (lit "status") ;;
   status <- __str_to_domain_status status ;;
   Ok (WAPIDomain_init name self (Some (eq_str type (lit "primary"))) (Some status)))%result.

(** The generator [domains] after its request: [return []] ends it with no
    item. *)
Definition domains_of_data (self : ref) (request_data : json)
    : iteration WAPIDomain.t :=
  if negb (truthy request_data) then empty
  else
    match subscript request_data (lit "domain") with
    | Raise e => broken e
    | Ok domains_dict =>
        if negb (truthy domains_dict) then empty
        else
          match dict_values domains_dict with
          | Raise e => broken e
          | Ok ds => lazy_map (domain_of_dict self) ds
          end
    end.

(** The property [domains], gone through to its end.  It is a generator:
    nothing runs before the first item is asked for, and an exception of its
    body is what stops the iteration. *)
Definition domains (self : ref) : M (iteration WAPIDomain.t) :=
  fun w =>
    match make_request self (lit "dns-domains-list") JNull None w with
    | (Ok r, w') => (Ok (domains_of_data self (WAPIResponse.data r)), w')
    | (Raise e, w') => (Ok (broken e), w')
    end.

(** ** class WAPIDomain *)

Definition domain_name (self : WAPIDomain.t) : json := WAPIDomain.__domain self.

Definition __str_to_record_type (record_type_str : json)
    : result WAPIDomainRecordType.t :=
  (record_type_str <- py_upper record_type_str ;;
   match find_member WAPIDomainRecordType.members record_type_str with
   | Some t => Ok t
   | None =>
       Raise (WAPIError (lit "Unknown record type '" ++ record_type_str ++ lit "'"))
   end)%result.

Definition __row_dict_to_row (row_dict : json) : result WAPIDomainRecord.t :=
  (ID <- subscript row_dict (lit "ID") ;;
   id <- py_int ID ;;
   name <- subscript row_dict (lit "name") ;;
   ttl <- subscript row_dict (lit "ttl") ;;
   ttl <- py_int ttl ;;
   rdtype <- subscript row_dict (lit "rdtype") ;;
   record_type <- __str_to_record_type rdtype ;;
   content <- subscript row_dict (lit "rdata") ;;
   changed_date <- subscript row_dict (lit "changed_date") ;;
   changed <- strptime changed_date ;;
   author_comment <- subscript row_dict (lit "author_comment") ;;
   Ok {| WAPIDomainRecord.id := id;
         WAPIDomainRecord.name := name;
         WAPIDomainRecord.ttl := ttl;
         WAPIDomainRecord.record_type := record_type;
         WAPIDomainRecord.content := content;
         WAPIDomainRecord.changed := changed;
         WAPIDomainRecord.author_comment := author_comment |})%result.

(** The property [records]: the request is made at once, the rows are
    decoded as the result is gone through. *)
Definition records (self : WAPIDomain.t) : M (iteration WAPIDomainRecord.t) :=
  r <- make_request (WAPIDomain.__api self) (lit "dns-rows-list")
         (JObj [(lit "domain", WAPIDomain.__domain self)]) None ;;
  let request_data := WAPIResponse.data r in
  if negb (truthy request_data) then ret empty
  else
    records_str <- lift (subscript request_data (lit "row")) ;;
    if negb (truthy records_str) then ret empty
    else
      rows <- lift (py_iter records_str) ;;
      ret (lazy_map __row_dict_to_row rows).

(** The body of the loop of [records_as_dict]. *)
Definition record_as_dict (x : WAPIDomainRecord.t) : json :=
  JObj [(lit "id", JInt (WAPIDomainRecord.id x));
        (lit "name", WAPIDomainRecord.name x);
        (lit "ttl", JInt (WAPIDomainRecord.ttl x));
        (lit "record_type",
         JStr (WAPIDomainRecordType.value (WAPIDomainRecord.record_type x)));
        (lit "content", WAPIDomainRecord.content x);
        (lit "changed", JStr (strftime (WAPIDomainRecord.changed x)));
        (lit "author_comment", WAPIDomainRecord.author_comment x)].

(** The property [records_as_dict], a generator, gone through to its end. *)
Definition records_as_dict (self : WAPIDomain.t) : M (iteration json) :=
  fun w =>
    match records self w with
    | (Ok it, w') =>
        (Ok {| items := map record_as_dict (items it); stopped := stopped it |}, w')
    | (Raise e, w') => (Ok (broken e), w')
    end.

Definition add_record (self : WAPIDomain.t) (name : pystr)
    (record_type : WAPIDomainRecordType.t) (content : pystr) (ttl : Z) : M unit :=
  _ <- make_request (WAPIDomain.__api self) (lit "dns-row-add")
         (JObj [(lit "domain", WAPIDomain.__domain self);
                (lit "name", JStr name);
                (lit "ttl", JInt ttl);
                (lit "type", JStr (WAPIDomainRecordType.value record_type));
                (lit "rdata", JStr content)]) None ;;
  ret tt.

Definition remove_record (self : WAPIDomain.t) (record : WAPIDomainRecord.t)
    : M unit :=
  _ <- make_request (WAPIDomain.__api self) (lit "dns-row-delete")
         (JObj [(lit "domain", WAPIDomain.__domain self);
                (lit "row_id", JInt (WAPIDomainRecord.id record))]) None ;;
  ret tt.

Definition commit (self : WAPIDomain.t) : M unit :=
  _ <- make_request (WAPIDomain.__api self) (lit "dns-domain-commit")
         (JObj [(lit "name", WAPIDomain.__domain self)]) None ;;
  ret tt.

(** ** The operations of a client, as a caller issues them *)

Inductive operation : Type :=
| Set_test_mode (self : ref) (enabled : bool)
| Make_request (self : ref) (command : pystr) (data : json)
    (command_id : option pystr)
| Ping (self : ref)
| Open_domain (self : ref) (domain : pystr)
| Domains (self : ref)
| Records (d : WAPIDomain.t)
| Records_as_dict (d : WAPIDomain.t)
| Add_record (d : WAPIDomain.t) (name : pystr)
    (record_type : WAPIDomainRecordType.t) (content : pystr) (ttl : Z)
| Remove_record (d : WAPIDomain.t) (record : WAPIDomainRecord.t)
| Commit (d : WAPIDomain.t).

(** The world an operation leaves, whether it returned or raised. *)
Definition run (op : operation) (w : world) : world :=
  match op with
  | Set_test_mode self enabled => snd (set_test_mode self enabled w)
  | Make_request self command data command_id =>
      snd (make_request self command data command_id w)
  | Ping self => snd (ping self w)
  | Open_domain self domain => snd (open_domain self domain w)
  | Domains self => snd (domains self w)
  | Records d => snd (records d w)
  | Records_as_dict d => snd (records_as_dict d w)
  | Add_record d name record_type content ttl =>
      snd (add_record d name record_type content ttl w)
  | Remove_record d record => snd (remove_record d record w)
  | Commit d => snd (commit d w)
  end.

Definition run_all (ops : list operation) (w : world) : world :=
  fold_left (fun w' op => run op w') ops w.

Definition is_set_test_mode (self : ref) (op : operation) : bool :=
  match op with
  | Set_test_mode r _ => Nat.eqb r self
  | _ => false
  end.

(** ** Notions the statements use *)

(** The request of [command] gets through in [w] and the endpoint's decoded
    [response] is [resp]. *)
Definition answered (w : world) (self : ref) (command : pystr) (data : json)
    (command_id : option pystr) (resp : json) : Prop :=
  exists auth body,
    fst (__get_auth self w) = Ok auth /\
    server w (envelope (request_of (store w self) command data command_id auth)
              :: posted w) = Body body /\
    subscript body (lit "response") = Ok resp.

(** The status code [make_request] looks at. *)
Definition status_code (resp : json) : result json :=
  get_default resp (lit "code") (JStr (lit "3000")).

(** [resp.get('code', '3000')] for the dictionary [resp]. *)
Definition code_of (kvs : list (pystr * json)) : json :=
  match dict_get kvs (lit "code") with
  | Some code => code
  | None => JStr (lit "3000")
  end.

(** The code counts as a success. *)
Definition success_code (code : json) : bool := startswith (lit "1") (py_str code).

(** The fields [make_request] reads by subscript are there, and the test
    flag, if there, converts with [int]. *)
Definition complete (kvs : list (pystr * json)) : Prop :=
  (forall k, In k [lit "result"; lit "timestamp"; lit "clTRID"; lit "svTRID";
                   lit "command"] -> dict_get kvs k <> None) /\
  (forall v, dict_get kvs (lit "test") = Some v -> exists n, py_int v = Ok n).

(** [s] is [name] up to the case of its ASCII letters. *)
Definition same_letters (s name : pystr) : Prop :=
  Forall2 (fun c d => c = d \/ (in_range 65 90 d = true /\ c = d + 32)) s name.

(** The payload holds nothing to list under [key]: it is absent or empty, or
    its collection is. *)
Definition nothing_listed (key : pystr) (data : json) : Prop :=
  truthy data = false \/
  exists collection, subscript data key = Ok collection /\ truthy collection = false.

(** A computation that leaves the client objects, the endpoint and the
    clock's face as they are, and only adds to what was posted and read. *)
Definition quiet {T} (c : M T) : Prop :=
  forall w,
    store (snd (c w)) = store w /\
    server (snd (c w)) = server w /\
    clock (snd (c w)) = clock w.

Definition is_lower_hex (c : N) : bool := in_range 48 57 c || in_range 97 102 c.

(** *** The authentication digest, following the specification's words:
    [sha1_hex(user + sha1_hex(secret_key) + hour)], UTF-8, lower-case hex. *)

Definition sha1_hex (s : pystr) : result pystr :=
  (bytes <- encode_utf8 s ;; Ok (SHA1.hexdigest bytes))%result.

Definition auth_digest (user key hour : pystr) : result pystr :=
  (inner <- sha1_hex key ;; sha1_hex (user ++ inner ++ hour))%result.

(** An hour as two decimal digits. *)
Definition two_digits (h : Z) : pystr :=
  [48 + Z.to_N (h / 10); 48 + Z.to_N (h mod 10)].

End Client.

(** ** Worlds for the examples *)

Definition midnight : datetime :=
  {| year := 2024; month := 1; day := 1; hour := 0; minute := 0; second := 0;
     microsecond := 0 |}.

(** One client, a clock that shows seven in the morning, and an endpoint
    that gives the same answer to every request. *)
Definition world_of (client : WAPI.t) (answer : reply) : world :=
  {| store := fun _ => client;
     posted := [];
     server := fun _ => answer;
     reads := 0;
     clock := fun _ =>
       {| year := 2024; month := 1; day := 1; hour := 7; minute := 30;
          second := 0; microsecond := 0 |} |}.

Definition a_client : WAPI.t :=
  {| WAPI.__key := lit "key"; WAPI.__user := lit "user@example.com";
     WAPI.__test_mode := false |}.

Definition response_of (kvs : list (pystr * json)) : reply :=
  Body (JObj [(lit "response", JObj kvs)]).

(** A complete envelope with the given status code and payload. *)
Definition envelope_with (code data : json) : list (pystr * json) :=
  [(lit "code", code); (lit "result", JStr (lit "OK"));
   (lit "timestamp", JInt 1704067200); (lit "clTRID", JStr (lit "ping"));
   (lit "svTRID", JStr (lit "1704067200.1234.5678"));
   (lit "command", JStr (lit "ping")); (lit "data", data)].

(** The response [make_request] builds from it. *)
Definition response_with (code data : json) : WAPIResponse.t :=
  {| WAPIResponse.code := code;
     WAPIResponse.result := JStr (lit "OK");
     WAPIResponse.timestamp := JInt 1704067200;
     WAPIResponse.command_id := JStr (lit "ping");
     WAPIResponse.server_command_id := JStr (lit "1704067200.1234.5678");
     WAPIResponse.command := JStr (lit "ping");
     WAPIResponse.data := data;
     WAPIResponse.test := false |}.

(** The row of the round-trip example, with the record type as given. *)
Definition example_row (rdtype : pystr) : json :=
  JObj [(lit "ID", JStr (lit "5")); (lit "name", JStr (lit "www"));
        (lit "ttl", JStr (lit "1800")); (lit "rdtype", JStr rdtype);
        (lit "rdata", JStr (lit "1.2.3.4"));
        (lit "changed_date", JStr (lit "2024-01-01 00:00:00"));
        (lit "author_comment", JStr (lit ""))].

(** * The rest of api.py *)

Section Rest.

Context {P : Platform}.

Local Open Scope M_scope.

(** [list(it)] *)
Definition to_list {T} (it : iteration T) : result (list T) :=
  match stopped it with
  | None => Ok (items it)
  | Some e => Raise e
  end.

(** What a dictionary asks of a key: lists and dictionaries cannot be
    hashed. *)
Definition hashable (v : json) : result unit :=
  match v with
  | JList _ | JObj _ => Raise TypeError
  | _ => Ok tt
  end.

(** The comprehension of [domains_as_dict] over the domains the generator
    produces: for each, the rows are listed and gone through, then the entry
    is stored under the domain's name. *)
Fixpoint snapshot (ds : list WAPIDomain.t) : M (list (json * list json)) :=
  match ds with
  | [] => ret []
  | d :: rest =>
      it <- records_as_dict d ;;
      rows <- lift (to_list it) ;;
      _ <- lift (hashable (domain_name d)) ;;
      more <- snapshot rest ;;
      ret ((domain_name d, rows) :: more)
  end.

(** The property [domains_as_dict], as the entries stored, in order: the
    dictionary returned holds, under each name, the rows of the last entry
    stored under it.  The generator decodes a domain only when the entries of
    the domains before it are stored, and decoding has no effect, so an
    exception of the generator is raised after them. *)
Definition domains_as_dict (self : ref) : M (list (json * list json)) :=
  it <- domains self ;;
  entries <- snapshot (items it) ;;
  match stopped it with
  | None => ret entries
  | Some e => raise e
  end.

(** [__str__] of a domain; [__repr__] is the same text. *)
Definition __str__ (self : WAPIDomain.t) : pystr :=
  let r := lit "Domain<" ++ py_str (WAPIDomain.__domain self) in
  let r :=
    match WAPIDomain.__is_primary self with
    | Some is_primary =>
        r ++ lit ", " ++ (if is_primary then lit "PRIMARY" else lit "SECONDARY")
    | None => r
    end in
  let r :=
    match WAPIDomain.__status self with
    | Some status => r ++ lit ", " ++ WAPIDomainStatus.value status
    | None => r
    end in
  r ++ lit ">".

Definition __repr__ (self : WAPIDomain.t) : pystr := __str__ self.

(** ** Notions the further statements use *)

(** The request an operation makes: the client it goes through, the command,
    the data and the correlation id. *)
Definition request_made (op : operation)
    : option (ref * pystr * json * option pystr) :=
  match op with
  | Set_test_mode _ _ => None
  | Open_domain _ _ => None
  | Make_request self command data command_id =>
      Some (self, command, data, command_id)
  | Ping self => Some (self, lit "ping", JNull, None)
  | Domains self => Some (self, lit "dns-domains-list", JNull, None)
  | Records d =>
      Some (WAPIDomain.__api d, lit "dns-rows-list",
            JObj [(lit "domain", WAPIDomain.__domain d)], None)
  | Records_as_dict d =>
      Some (WAPIDomain.__api d, lit "dns-rows-list",
            JObj [(lit "domain", WAPIDomain.__domain d)], None)
  | Add_record d name record_type content ttl =>
      Some (WAPIDomain.__api d, lit "dns-row-add",
            JObj [(lit "domain", WAPIDomain.__domain d);
                  (lit "name", JStr name);
                  (lit "ttl", JInt ttl);
                  (lit "type", JStr (WAPIDomainRecordType.value record_type));
                  (lit "rdata", JStr content)], None)
  | Remove_record d record =>
      Some (WAPIDomain.__api d, lit "dns-row-delete",
            JObj [(lit "domain", WAPIDomain.__domain d);
                  (lit "row_id", JInt (WAPIDomainRecord.id record))], None)
  | Commit d =>
      Some (WAPIDomain.__api d, lit "dns-domain-commit",
            JObj [(lit "name", WAPIDomain.__domain d)], None)
  end.

Definition raised {T} (r : result T) : option exn :=
  match r with
  | Ok _ => None
  | Raise e => Some e
  end.

Definition stopped_or_raised {T} (r : result (iteration T)) : option exn :=
  match r with
  | Ok it => stopped it
  | Raise e => Some e
  end.

(** The exception an operation ends with, in the call or while its result is
    gone through; [None] when there is none. *)
Definition failure (op : operation) (w : world) : option exn :=
  match op with
  | Set_test_mode self enabled => raised (fst (set_test_mode self enabled w))
  | Make_request self command data command_id =>
      raised (fst (make_request self command data command_id w))
  | Ping self => raised (fst (ping self w))
  | Open_domain self domain => raised (fst (open_domain self domain w))
  | Domains self => stopped_or_raised (fst (domains self w))
  | Records d => stopped_or_raised (fst (records d w))
  | Records_as_dict d => stopped_or_raised (fst (records_as_dict d w))
  | Add_record d name record_type content ttl =>
      raised (fst (add_record d name record_type content ttl w))
  | Remove_record d record => raised (fst (remove_record d record w))
  | Commit d => raised (fst (commit d w))
  end.

(** A code point that UTF-8 encodes: not a surrogate, and below 0x110000. *)
Definition encodable (c : N) : bool :=
  (c <? 0xD800) || ((0xDFFF <? c) && (c <? 0x110000)).

(** A timestamp of the calendar, from the year 1000 on, with whole seconds. *)
Definition valid_timestamp (d : datetime) : Prop :=
  (1000 <= year d <= 9999 /\ 1 <= month d <= 12 /\
   1 <= day d <= days_in_month (year d) (month d) /\
   0 <= hour d < 24 /\ 0 <= minute d < 60 /\ 0 <= second d < 60 /\
   microsecond d = 0)%Z.

(** *** How the date pattern goes through a text that [strftime] wrote *)

Definition starts_with_digit (s : pystr) : Prop :=
  exists c rest, s = c :: rest /\ is_digit c = true.

(** A separator of the pattern: it takes its text off the front, and finds
    nothing in front of a digit. *)
Definition separates (q : matcher) (sep rest : pystr) : Prop :=
  q (sep ++ rest) = [(sep, rest)] /\
  forall s, starts_with_digit s -> q s = [].

(** A group of the pattern on the text [txt]: the whole of [txt] is its first
    match, and any other match stops in front of a digit. *)
Definition takes (p : matcher) (txt : pystr) : Prop :=
  forall rest,
    exists others,
      p (txt ++ rest) = (txt, rest) :: others /\
      Forall (fun mr => starts_with_digit (snd mr)) others.

(** The ten digits, and every text of four of them. *)
Definition digits : list N := [48; 49; 50; 51; 52; 53; 54; 55; 56; 57].

Definition four_digit_texts : list pystr :=
  flat_map (fun a => flat_map (fun b => flat_map (fun c =>
    map (fun d => [a; b; c; d]) digits) digits) digits) digits.

(** The value of a group is within bounds. *)
Definition group_within (lo hi : Z) (txt : pystr) : bool :=
  ((lo <=? group_value txt) && (group_value txt <=? hi))%Z.

(** A year prints as four digits that read back as the year. *)
Definition year_prints (y : Z) : bool :=
  match str_of_Z y with
  | [a; b; c; d] =>
      is_digit a && is_digit b && is_digit c && is_digit d
      && (group_value [a; b; c; d] =? y)%Z
  | _ => false
  end.

End Rest.

(** ** A provider for the examples *)

(** The command of a posted document. *)
Definition command_of (doc : json) : pystr :=
  match rbind (subscript doc (lit "request"))
          (fun inner => subscript inner (lit "command")) with
  | Ok (JStr c) => c
  | _ => []
  end.

(** A row whose record type is no member. *)
Definition bad_row : json := example_row (lit "CNAMEX").

(** A provider with one primary, active domain, "example.com"; its rows are
    [rows]. *)
Definition provider (rows : list json) (docs : list json) : reply :=
  match docs with
  | [] => Failed (lit "nothing was sent")
  | doc :: _ =>
      if str_eqb (command_of doc) (lit "dns-domains-list") then
        response_of
          (envelope_with (JInt 1000)
             (JObj [(lit "domain",
                     JObj [(lit "0",
                            JObj [(lit "name", JStr (lit "example.com"));
                                  (lit "type", JStr (lit "primary"));
                                  (lit "status", JStr (lit "active"))])])]))
      else if str_eqb (command_of doc) (lit "dns-rows-list") then
        response_of (envelope_with (JInt 1000) (JObj [(lit "row", JList rows)]))
      else response_of (envelope_with (JInt 1000) JNull)
  end.

Definition world_with (rows : list json) : world :=
  {| store := fun _ => a_client;
     posted := [];
     server := provider rows;
     reads := 0;
     clock := fun _ => midnight |}.

Definition example_domain : WAPIDomain.t :=
  {| WAPIDomain.__api := 0%nat;
     WAPIDomain.__domain := JStr (lit "example.com");
     WAPIDomain.__is_primary := Some true;
     WAPIDomain.__status := Some WAPIDomainStatus.ACTIVE |}.

Definition example_record : WAPIDomainRecord.t :=
  {| WAPIDomainRecord.id := 5;
     WAPIDomainRecord.name := JStr (lit "www");
     WAPIDomainRecord.ttl := 1800;
     WAPIDomainRecord.record_type := WAPIDomainRecordType.A;
     WAPIDomainRecord.content := JStr (lit "1.2.3.4");
     WAPIDomainRecord.changed := midnight;
     WAPIDomainRecord.author_comment := JStr (lit "") |}.

(** * Properties *)

Section Properties.

Context {P : Platform}.

(** ** Text and dictionaries *)

Lemma str_eqb_eq (a b : pystr) : str_eqb a b = true <-> a = b.
Proof.
  revert b; induction a as [|x a IH]; intros [|y b]; simpl; split; intro H;
    try reflexivity; try discriminate.
  - apply andb_true_iff in H as [Hx Hab]. apply N.eqb_eq in Hx.
    apply IH in Hab. now subst.
  - injection H as -> ->. apply andb_true_iff. split.
    + apply N.eqb_refl.
    + now apply IH.
Qed.

Lemma str_eqb_refl (a : pystr) : str_eqb a a = true.
Proof. now apply str_eqb_eq. Qed.

(** ** The store is touched by [set_test_mode] alone *)

Lemma quiet_ret {T} (a : T) : quiet (ret a).
Proof. intro w. now cbn. Qed.

Lemma quiet_raise {T} (e : exn) : quiet (@raise T e).
Proof. intro w. now cbn. Qed.

Lemma quiet_lift {T} (r : result T) : quiet (lift r).
Proof. intro w. now cbn. Qed.

Lemma quiet_deref (self : ref) : quiet (deref self).
Proof. intro w. now cbn. Qed.

Lemma quiet_now : quiet now.
Proof. intro w. now cbn. Qed.

Lemma quiet_post (doc : json) : quiet (post doc).
Proof. intro w. unfold post. now destruct (server w (doc :: posted w)). Qed.

Lemma quiet_bind {T U} (c : M T) (k : T -> M U) :
  quiet c -> (forall a, quiet (k a)) -> quiet (bind c k).
Proof.
  intros Hc Hk w. unfold bind.
  destruct (c w) as [[a|e] w1] eqn:E; specialize (Hc w); rewrite E in Hc; cbn in Hc.
  - destruct (Hk a w1) as (H1 & H2 & H3), Hc as (G1 & G2 & G3).
    rewrite H1, H2, H3. auto.
  - exact Hc.
Qed.

Lemma quiet_if {T} (b : bool) (c1 c2 : M T) :
  quiet c1 -> quiet c2 -> quiet (if b then c1 else c2).
Proof. now destruct b. Qed.

Create HintDb quiet.
#[local] Hint Resolve quiet_ret quiet_raise quiet_lift quiet_deref quiet_now
  quiet_post quiet_if : quiet.
#[local] Hint Extern 2 (quiet (bind _ _)) => apply quiet_bind; [|intro] : quiet.

Lemma quiet_get_auth (self : ref) : quiet (__get_auth self).
Proof. unfold __get_auth. auto 10 with quiet. Qed.

Lemma quiet_make_request self command data command_id :
  quiet (make_request self command data command_id).
Proof.
  unfold make_request. pose proof (quiet_get_auth self). auto 10 with quiet.
Qed.

#[local] Hint Resolve quiet_make_request : quiet.

Lemma quiet_ping self : quiet (ping self).
Proof.
  intro w. unfold ping.
  pose proof (quiet_make_request self (lit "ping") JNull None w) as H.
  destruct (make_request self (lit "ping") JNull None w) as [[r|[]] w1]; exact H.
Qed.

Lemma quiet_open_domain self domain : quiet (open_domain self domain).
Proof. unfold open_domain. auto with quiet. Qed.

Lemma quiet_domains self : quiet (domains self).
Proof.
  intro w. unfold domains.
  pose proof (quiet_make_request self (lit "dns-domains-list") JNull None w) as H.
  destruct (make_request self (lit "dns-domains-list") JNull None w) as [[r|e] w1];
    exact H.
Qed.

Lemma quiet_records d : quiet (records d).
Proof. unfold records. auto 12 with quiet. Qed.

Lemma quiet_records_as_dict d : quiet (records_as_dict d).
Proof.
  intro w. unfold records_as_dict.
  pose proof (quiet_records d w) as H.
  destruct (records d w) as [[r|e] w1]; exact H.
Qed.

Lemma quiet_add_record d name record_type content ttl :
  quiet (add_record d name record_type content ttl).
Proof. unfold add_record. auto 10 with quiet. Qed.

Lemma quiet_remove_record d record : quiet (remove_record d record).
Proof. unfold remove_record. auto 10 with quiet. Qed.

Lemma quiet_commit d : quiet (commit d).
Proof. unfold commit. auto 10 with quiet. Qed.

(** ** One exchange with the endpoint *)

Lemma get_auth_posted self w : posted (snd (__get_auth self w)) = posted w.
Proof.
  unfold __get_auth, bind, deref, lift, now, ret; cbn.
  destruct (encode_utf8 (WAPI.__key (store w self))); cbn; [|reflexivity].
  destruct (encode_utf8 _); reflexivity.
Qed.

(** What [make_request] does once the digest is computed: it posts the
    envelope, and the answer decides. *)
Lemma make_request_run self command data command_id w auth :
  fst (__get_auth self w) = Ok auth ->
  let doc := envelope (request_of (store w self) command data command_id auth) in
  fst (make_request self command data command_id w) =
    match server w (doc :: posted w) with
    | Body body => rbind (subscript body (lit "response")) check_response
    | Failed what => Raise (TransportError what)
    end
  /\ posted (snd (make_request self command data command_id w)) = doc :: posted w.
Proof.
  intros Ha doc. subst doc.
  pose proof (quiet_get_auth self w) as (Hs & Hv & _).
  pose proof (get_auth_posted self w) as Hp.
  unfold make_request, bind.
  destruct (__get_auth self w) as [[a|e] w1]; cbn in Ha, Hs, Hv, Hp; [|discriminate].
  injection Ha as ->. unfold deref, post, lift. rewrite Hs, Hv, Hp.
  destruct (server w _) as [body|what]; cbn; [|auto].
  destruct (subscript body _); cbn; auto.
Qed.

Lemma make_request_no_auth self command data command_id w e :
  fst (__get_auth self w) = Raise e ->
  fst (make_request self command data command_id w) = Raise e
  /\ posted (snd (make_request self command data command_id w)) = posted w.
Proof.
  intro Ha. pose proof (get_auth_posted self w) as Hp.
  unfold make_request, bind.
  destruct (__get_auth self w) as [[a|e'] w1]; cbn in Ha, Hp; [discriminate|].
  injection Ha as ->. auto.
Qed.

Lemma make_request_answered w self command data command_id resp :
  answered w self command data command_id resp ->
  fst (make_request self command data command_id w) = check_response resp.
Proof.
  intros (auth & body & Ha & Hs & Hb).
  destruct (make_request_run self command data command_id w auth Ha) as [H _].
  rewrite H, Hs, Hb. reflexivity.
Qed.

(** Only a number or a text can be a success code: [str()] of [None], of a
    truth value, of a list and of a dictionary does not start with "1". *)
Lemma success_code_cases (v : json) :
  success_code v =
    match v with
    | JInt n => startswith (lit "1") (str_of_Z n)
    | JFloat f => startswith (lit "1") (float_repr f)
    | JStr s => startswith (lit "1") s
    | _ => false
    end.
Proof. destruct v as [| [|] | | | | |]; reflexivity. Qed.

Lemma check_response_failure (kvs : list (pystr * json)) code :
  status_code (JObj kvs) = Ok code ->
  startswith (lit "1") (py_str code) = false ->
  check_response (JObj kvs) =
    Raise (WAPIError (lit "WAPI error: " ++ json_dumps (JObj kvs))).
Proof.
  unfold status_code, check_response. intros -> H. cbn [rbind]. now rewrite H.
Qed.

Lemma check_response_success (kvs : list (pystr * json)) code :
  status_code (JObj kvs) = Ok code ->
  startswith (lit "1") (py_str code) = true ->
  complete kvs ->
  exists r, check_response (JObj kvs) = Ok r /\ WAPIResponse.code r = code.
Proof.
  unfold status_code, check_response. intros Hc H [Hfields Htest].
  rewrite Hc. cbn [rbind]. rewrite H.
  assert (Hcode : dict_get kvs (lit "code") = Some code).
  { unfold get_default in Hc. destruct (dict_get kvs (lit "code")) as [c|] eqn:E.
    - now injection Hc as ->.
    - injection Hc as <-. discriminate. }
  assert (Hsub : forall k, dict_get kvs k <> None ->
                  exists v, subscript (JObj kvs) k = Ok v).
  { intros k Hk. unfold subscript. destruct (dict_get kvs k); [eauto|contradiction]. }
  unfold subscript at 1. rewrite Hcode. cbn [rbind].
  destruct (Hsub (lit "result")) as [v1 ->]; [apply Hfields; cbn; tauto|].
  destruct (Hsub (lit "timestamp")) as [v2 ->]; [apply Hfields; cbn; tauto|].
  destruct (Hsub (lit "clTRID")) as [v3 ->]; [apply Hfields; cbn; tauto|].
  destruct (Hsub (lit "svTRID")) as [v4 ->]; [apply Hfields; cbn; tauto|].
  destruct (Hsub (lit "command")) as [v5 ->]; [apply Hfields; cbn; tauto|].
  cbn [rbind get_default].
  destruct (dict_get kvs (lit "data")) as [d|]; cbn [rbind];
    (destruct (dict_get kvs (lit "test")) as [t|] eqn:Et; cbn [rbind];
     [destruct (Htest t eq_refl) as [n ->]|]; cbn; eauto).
Qed.

Lemma check_response_only_if resp r :
  check_response resp = Ok r ->
  exists code, status_code resp = Ok code /\ startswith (lit "1") (py_str code) = true.
Proof.
  unfold check_response, status_code.
  destruct (get_default resp (lit "code") (JStr (lit "3000"))) as [code|e];
    cbn [rbind]; [|discriminate].
  destruct (startswith (lit "1") (py_str code)) eqn:E; [eauto|discriminate].
Qed.

Lemma status_code_of (kvs : list (pystr * json)) :
  status_code (JObj kvs) = Ok (code_of kvs).
Proof.
  unfold status_code, code_of, get_default.
  now destruct (dict_get kvs (lit "code")).
Qed.

(** The interpreter's own operations never raise the module's error. *)
Lemma subscript_raises v k e : subscript v k = Raise e -> is_WAPIError e = false.
Proof.
  unfold subscript. destruct v; try (intro H; now injection H as <-).
  destruct (dict_get kvs k); [discriminate|]. intro H. now injection H as <-.
Qed.

Lemma get_default_raises v k d e :
  get_default v k d = Raise e -> is_WAPIError e = false.
Proof.
  unfold get_default. destruct v; try (intro H; now injection H as <-).
  destruct (dict_get kvs k); discriminate.
Qed.

Lemma int_ascii_raises s e : int_ascii s = Raise e -> is_WAPIError e = false.
Proof.
  unfold int_ascii.
  match goal with |- context [match ?x with Some _ => _ | None => _ end] =>
    destruct x end; [discriminate|].
  intro H. now injection H as <-.
Qed.

Lemma py_int_raises v e : py_int v = Raise e -> is_WAPIError e = false.
Proof.
  unfold py_int. destruct v; try discriminate; try (intro H; now injection H as <-).
  - destruct (float_int f); [discriminate| |]; intro H; now injection H as <-.
  - destruct (forallb is_ascii s); [apply int_ascii_raises|].
    destruct (int_other s); [discriminate|]. intro H. now injection H as <-.
Qed.

Lemma check_response_WAPIError (kvs : list (pystr * json)) msg :
  check_response (JObj kvs) = Raise (WAPIError msg) ->
  success_code (code_of kvs) = false.
Proof.
  unfold check_response, success_code.
  pose proof (status_code_of kvs) as Hc. unfold status_code in Hc. rewrite Hc.
  cbn [rbind].
  destruct (startswith (lit "1") (py_str (code_of kvs))); [|reflexivity].
  intro H. exfalso.
  repeat match type of H with
         | rbind ?x _ = Raise _ =>
             let E := fresh "E" in
             destruct x eqn:E; cbn [rbind] in H;
             [ clear E
             | injection H as ->;
               first [ apply subscript_raises in E
                     | apply get_default_raises in E
                     | apply py_int_raises in E ];
               discriminate ]
         end.
  discriminate.
Qed.

(** ** [make_request] and the status code *)

(** When the endpoint answers with the envelope [kvs], the status code
    decides, and a success code needs the rest of the envelope. *)
Lemma make_request_outcome w self command data command_id kvs :
  answered w self command data command_id (JObj kvs) ->
  ((exists r, fst (make_request self command data command_id w) = Ok r) ->
   success_code (code_of kvs) = true) /\
  (success_code (code_of kvs) = true -> complete kvs ->
   exists r, fst (make_request self command data command_id w) = Ok r /\
             WAPIResponse.code r = code_of kvs) /\
  (success_code (code_of kvs) = false ->
   fst (make_request self command data command_id w) =
     Raise (WAPIError (lit "WAPI error: " ++ json_dumps (JObj kvs)))) /\
  (forall msg,
     fst (make_request self command data command_id w) = Raise (WAPIError msg) ->
     success_code (code_of kvs) = false).
Proof.
  intros Hans.
  rewrite (make_request_answered _ _ _ _ _ _ Hans).
  pose proof (status_code_of kvs) as Hcode.
  split; [|split; [|split]].
  - intros [r Hr]. apply check_response_only_if in Hr as (code & Hc & Hs).
    rewrite Hcode in Hc. now injection Hc as <-.
  - intros Hs Hfull. now apply check_response_success.
  - intro Hs. now apply check_response_failure with (code := code_of kvs).
  - intros msg. apply check_response_WAPIError.
Qed.

(** C1, as amended.  When the endpoint answers with the envelope [kvs]:
    [make_request] returns a response only if the string form of the status
    code starts with "1"; it does return one, carrying that code, when in
    addition the envelope holds [result], [timestamp], [clTRID], [svTRID]
    and [command] and its [test] flag, if present, converts to an integer;
    and it raises [WAPIError] with the whole decoded response in its message
    exactly when the string form of the code does not start with "1".
    "1000" is a success code, "2999" is not. *)
Theorem make_request_by_status_code w self command data command_id kvs :
  answered w self command data command_id (JObj kvs) ->
  let outcome := fst (make_request self command data command_id w) in
  ((exists r, outcome = Ok r) -> success_code (code_of kvs) = true) /\
  (success_code (code_of kvs) = true -> complete kvs ->
   exists r, outcome = Ok r /\ WAPIResponse.code r = code_of kvs) /\
  (success_code (code_of kvs) = false <->
   outcome = Raise (WAPIError (lit "WAPI error: " ++ json_dumps (JObj kvs)))) /\
  success_code (JStr (lit "1000")) = true /\
  success_code (JStr (lit "2999")) = false /\
  success_code (JInt 1000) = true /\
  success_code (JInt 2999) = false.
Proof.
  intros Hans outcome. subst outcome.
  destruct (make_request_outcome _ _ _ _ _ _ Hans) as (H1 & H2 & H3 & H4).
  repeat split; try reflexivity; try assumption.
  intro H. now apply H4 in H.
Qed.

(** C9.  An envelope without a [code] field is judged by the code "3000":
    [make_request] raises [WAPIError] with the whole decoded response in its
    message, and no [KeyError]. *)
Theorem make_request_missing_code w self command data command_id kvs :
  answered w self command data command_id (JObj kvs) ->
  dict_get kvs (lit "code") = None ->
  status_code (JObj kvs) = Ok (JStr (lit "3000")) /\
  fst (make_request self command data command_id w) =
    Raise (WAPIError (lit "WAPI error: " ++ json_dumps (JObj kvs))).
Proof.
  intros Hans Hnone.
  assert (Hc : status_code (JObj kvs) = Ok (JStr (lit "3000"))).
  { rewrite status_code_of. unfold code_of. now rewrite Hnone. }
  split; [exact Hc|].
  rewrite (make_request_answered _ _ _ _ _ _ Hans).
  now apply check_response_failure with (code := JStr (lit "3000")).
Qed.

(** C3.  The [clTRID] of the envelope is the command, whatever correlation
    id the caller gave: [make_request] stores [command_id] in the request
    tuple and then writes [request.command] into the field.  With the
    command "ping" and the id "abc" the envelope posted carries "ping". *)
Theorem envelope_clTRID_is_command (request : WAPIRequest.t) :
  (rbind (subscript (envelope request) (lit "request"))
     (fun inner => subscript inner (lit "clTRID"))
   = Ok (JStr (WAPIRequest.command request))) /\
  (forall w self command data command_id auth,
     fst (__get_auth self w) = Ok auth ->
     exists doc rest,
       posted (snd (make_request self command data command_id w)) = doc :: rest /\
       rbind (subscript doc (lit "request"))
         (fun inner => subscript inner (lit "clTRID")) = Ok (JStr command)) /\
  (let w := world_of a_client (response_of (envelope_with (JInt 1000) JNull)) in
   exists doc rest,
     posted (snd (make_request 0%nat (lit "ping") JNull (Some (lit "abc")) w))
       = doc :: rest /\
     rbind (subscript doc (lit "request"))
       (fun inner => subscript inner (lit "clTRID")) = Ok (JStr (lit "ping")) /\
     JStr (lit "ping") <> JStr (lit "abc")).
Proof.
  split; [reflexivity|]. split.
  - intros w self command data command_id auth Ha.
    destruct (make_request_run self command data command_id w auth Ha) as [_ Hp].
    eexists _, _. split; [exact Hp|reflexivity].
  - cbv zeta.
    destruct (make_request_run 0%nat (lit "ping") JNull (Some (lit "abc"))
                (world_of a_client (response_of (envelope_with (JInt 1000) JNull)))
                (lit "b7cf4c707d9c428159ee0fe0c16453446c5b5b20")) as [_ Hp].
    { vm_compute. reflexivity. }
    eexists _, _. split; [exact Hp|]. split; [reflexivity|discriminate].
Qed.

(** ** [ping] *)

(** C4, as amended.  [ping] returns [True] exactly when
    [make_request('ping')] returns, [False] exactly when it raises
    [WAPIError], and lets any other exception through as it is, in the world
    of the call.  So, of an envelope, [False]
    is the answer exactly when the code does not start with "1", a success
    code in an envelope that [make_request] can decode gives [True], and a
    failure of the transport is raised to the caller. *)
Theorem ping_by_make_request self w :
  let outcome := fst (make_request self (lit "ping") JNull None w) in
  (fst (ping self w) = Ok true <-> exists r, outcome = Ok r) /\
  (fst (ping self w) = Ok false <-> exists msg, outcome = Raise (WAPIError msg)) /\
  (forall e, is_WAPIError e = false -> outcome = Raise e ->
             fst (ping self w) = Raise e) /\
  snd (ping self w) = snd (make_request self (lit "ping") JNull None w) /\
  (forall kvs, answered w self (lit "ping") JNull None (JObj kvs) ->
     (success_code (code_of kvs) = false <-> fst (ping self w) = Ok false) /\
     (success_code (code_of kvs) = true -> complete kvs ->
      fst (ping self w) = Ok true)) /\
  (forall auth what,
     fst (__get_auth self w) = Ok auth ->
     server w (envelope (request_of (store w self) (lit "ping") JNull None auth)
               :: posted w) = Failed what ->
     fst (ping self w) = Raise (TransportError what)).
Proof.
  cbv zeta.
  assert (Hcases :
    (fst (ping self w) = Ok true <->
     exists r, fst (make_request self (lit "ping") JNull None w) = Ok r) /\
    (fst (ping self w) = Ok false <->
     exists msg, fst (make_request self (lit "ping") JNull None w)
                 = Raise (WAPIError msg)) /\
    (forall e, is_WAPIError e = false ->
       fst (make_request self (lit "ping") JNull None w) = Raise e ->
       fst (ping self w) = Raise e) /\
    snd (ping self w) = snd (make_request self (lit "ping") JNull None w)).
  { unfold ping.
    destruct (make_request self (lit "ping") JNull None w) as [[r|e] w1];
      [|destruct e]; cbn [fst snd];
      repeat match goal with
             | |- _ /\ _ => split
             | |- _ <-> _ => split
             | |- forall _, _ => intro
             | H : exists _, _ |- _ => destruct H
             | H : Raise _ = Raise _ |- _ => injection H as <-
             end;
      try discriminate; try reflexivity; eauto. }
  destruct Hcases as (Htrue & Hfalse & Hother & Hworld).
  repeat split; try apply Htrue; try apply Hfalse; auto.
  - intro Hs. apply Hfalse.
    destruct (make_request_outcome _ _ _ _ _ _ H) as (_ & _ & Hfail & _).
    eexists. now apply Hfail.
  - intro Hp. apply Hfalse in Hp as [msg Hmsg].
    destruct (make_request_outcome _ _ _ _ _ _ H) as (_ & _ & _ & Honly).
    now apply Honly in Hmsg.
  - intros Hs Hfull. apply Htrue.
    destruct (make_request_outcome _ _ _ _ _ _ H) as (_ & Hok & _).
    destruct (Hok Hs Hfull) as (r & Hr & _). eauto.
  - intros auth what Ha Hsrv. apply Hother; [reflexivity|].
    destruct (make_request_run self (lit "ping") JNull None w auth Ha) as [Hr _].
    now rewrite Hr, Hsrv.
Qed.

(** ** [open_domain] *)

(** C8.  [open_domain] is a construction: it returns a handle that names the
    given domain and refers to the client it was asked of, in the world of
    the call, so nothing is posted and no client object changes. *)
Theorem open_domain_constructs self domain w :
  exists d,
    open_domain self domain w = (Ok d, w) /\
    domain_name d = JStr domain /\
    WAPIDomain.__api d = self /\
    posted (snd (open_domain self domain w)) = posted w /\
    store (snd (open_domain self domain w)) = store w.
Proof.
  exists (WAPIDomain_init (JStr domain) self None None). repeat split.
Qed.

(** ** The client's attributes *)

Lemma run_keeps_store op w :
  (forall self enabled, op <> Set_test_mode self enabled) ->
  store (run op w) = store w.
Proof.
  intro Hop. destruct op; cbn [run].
  - now contradiction (Hop self enabled).
  - apply quiet_make_request.
  - apply quiet_ping.
  - apply quiet_open_domain.
  - apply quiet_domains.
  - apply quiet_records.
  - apply quiet_records_as_dict.
  - apply quiet_add_record.
  - apply quiet_remove_record.
  - apply quiet_commit.
Qed.

Lemma run_set_test_mode self enabled w r :
  store (run (Set_test_mode self enabled) w) r =
    if Nat.eqb r self then
      {| WAPI.__key := WAPI.__key (store w r);
         WAPI.__user := WAPI.__user (store w r);
         WAPI.__test_mode := enabled |}
    else store w r.
Proof. reflexivity. Qed.

Lemma run_frame op w r :
  WAPI.__key (store (run op w) r) = WAPI.__key (store w r) /\
  WAPI.__user (store (run op w) r) = WAPI.__user (store w r) /\
  (is_set_test_mode r op = false ->
   WAPI.__test_mode (store (run op w) r) = WAPI.__test_mode (store w r)) /\
  (forall enabled, op = Set_test_mode r enabled ->
   WAPI.__test_mode (store (run op w) r) = enabled).
Proof.
  destruct op as [self enabled| | | | | | | | |];
    [|rewrite run_keeps_store by discriminate;
      repeat split; intros; try reflexivity; discriminate ..].
  rewrite !run_set_test_mode. cbn [is_set_test_mode].
  rewrite (Nat.eqb_sym self r).
  destruct (Nat.eqb_spec r self) as [->|Hne]; cbn; repeat split;
    try discriminate; intros b Hb; injection Hb; intros; congruence.
Qed.

(** C10.  Whatever operation a caller issues, and whether it returns or
    raises, every client keeps its user and its key; it keeps its test-mode
    flag too unless the operation is [set_test_mode] on that client, which
    sets the flag to its argument.  The same holds along any sequence of
    operations. *)
Theorem client_attributes_frame (ops : list operation) (w : world) (r : ref) :
  (forall op,
     WAPI.__key (store (run op w) r) = WAPI.__key (store w r) /\
     WAPI.__user (store (run op w) r) = WAPI.__user (store w r) /\
     (is_set_test_mode r op = false ->
      WAPI.__test_mode (store (run op w) r) = WAPI.__test_mode (store w r)) /\
     (forall enabled, op = Set_test_mode r enabled ->
      WAPI.__test_mode (store (run op w) r) = enabled)) /\
  WAPI.__key (store (run_all ops w) r) = WAPI.__key (store w r) /\
  WAPI.__user (store (run_all ops w) r) = WAPI.__user (store w r) /\
  (forallb (fun op => negb (is_set_test_mode r op)) ops = true ->
   WAPI.__test_mode (store (run_all ops w) r) = WAPI.__test_mode (store w r)).
Proof.
  split; [intro op; apply run_frame|].
  unfold run_all. revert w.
  induction ops as [|op ops IH]; intro w; cbn [fold_left forallb].
  - repeat split.
  - destruct (IH (run op w)) as (Hk & Hu & Ht).
    destruct (run_frame op w r) as (Hk1 & Hu1 & Ht1 & _).
    rewrite Hk, Hu, Hk1, Hu1. repeat split.
    intro H. apply andb_true_iff in H as [Hop Hops].
    apply negb_true_iff in Hop. rewrite (Ht Hops). now apply Ht1.
Qed.

(** A handle refers to its client: what [set_test_mode] stores there is what
    the handle's next request carries. *)
Lemma handle_follows_client (d : WAPIDomain.t) (enabled : bool) w auth :
  let w1 := run (Set_test_mode (WAPIDomain.__api d) enabled) w in
  fst (__get_auth (WAPIDomain.__api d) w1) = Ok auth ->
  exists doc rest,
    posted (run (Commit d) w1) = doc :: rest /\
    rbind (subscript doc (lit "request"))
      (fun inner => subscript inner (lit "test"))
    = Ok (JInt (if enabled then 1 else 0)).
Proof.
  intros w1 Ha.
  destruct (make_request_run (WAPIDomain.__api d) (lit "dns-domain-commit")
              (JObj [(lit "name", WAPIDomain.__domain d)]) None w1 auth Ha)
    as [_ Hp].
  eexists _, _. split.
  - cbn [run]. unfold commit, bind.
    destruct (make_request _ _ _ _ w1) as [[r|e] w2]; cbn [snd ret] in *; exact Hp.
  - subst w1. rewrite run_set_test_mode, Nat.eqb_refl. reflexivity.
Qed.

(** ** Listing *)

Lemma domains_of_nothing self data :
  nothing_listed (lit "domain") data -> domains_of_data self data = empty.
Proof.
  unfold domains_of_data. intros [Hd|(c & Hc & Hempty)].
  - now rewrite Hd.
  - destruct (truthy data); [cbn [negb]|reflexivity].
    rewrite Hc, Hempty. reflexivity.
Qed.

(** C7.  When the listing request returns a response whose payload is
    absent or empty, or whose collection is empty, [domains] and [records]
    (and [records_as_dict] over it) produce no item and raise nothing.  A
    response decoded from an envelope without [data] has the payload
    [None]. *)
Theorem listing_of_nothing self d w :
  (forall r w',
     make_request self (lit "dns-domains-list") JNull None w = (Ok r, w') ->
     nothing_listed (lit "domain") (WAPIResponse.data r) ->
     domains self w = (Ok empty, w')) /\
  (forall r w',
     make_request (WAPIDomain.__api d) (lit "dns-rows-list")
       (JObj [(lit "domain", WAPIDomain.__domain d)]) None w = (Ok r, w') ->
     nothing_listed (lit "row") (WAPIResponse.data r) ->
     records d w = (Ok empty, w') /\
     records_as_dict d w = (Ok empty, w')) /\
  (forall kvs r,
     check_response (JObj kvs) = Ok r -> dict_get kvs (lit "data") = None ->
     WAPIResponse.data r = JNull) /\
  (forall key,
     nothing_listed key JNull /\
     nothing_listed key (JObj []) /\
     nothing_listed key (JObj [(key, JObj [])]) /\
     nothing_listed key (JObj [(key, JList [])])).
Proof.
  assert (Hrecords : forall r w',
     make_request (WAPIDomain.__api d) (lit "dns-rows-list")
       (JObj [(lit "domain", WAPIDomain.__domain d)]) None w = (Ok r, w') ->
     nothing_listed (lit "row") (WAPIResponse.data r) ->
     records d w = (Ok empty, w')).
  { intros r w' Hreq Hnone. unfold records, bind. rewrite Hreq.
    destruct Hnone as [Hd|(c & Hc & Hempty)].
    - now rewrite Hd.
    - destruct (truthy (WAPIResponse.data r)); [cbn [negb]|reflexivity].
      unfold lift. rewrite Hc, Hempty. reflexivity. }
  split; [|split; [|split]].
  - intros r w' Hreq Hnone. unfold domains. rewrite Hreq.
    now rewrite domains_of_nothing.
  - intros r w' Hreq Hnone. split; [now apply Hrecords with (r := r)|].
    unfold records_as_dict. now rewrite (Hrecords r w' Hreq Hnone).
  - intros kvs r. unfold check_response.
    destruct (get_default (JObj kvs) (lit "code") (JStr (lit "3000"))) as [c|];
      cbn [rbind]; [|discriminate].
    destruct (startswith (lit "1") (py_str c)); [|discriminate].
    intros Hr Hdata. cbn [get_default] in Hr. rewrite Hdata in Hr.
    repeat match type of Hr with
           | rbind (Ok _) _ = _ => cbn [rbind] in Hr
           | rbind ?x _ = _ => destruct x; cbn [rbind] in Hr; [|discriminate]
           end.
    now injection Hr as <-.
  - intro key. repeat split.
    + now left.
    + now left.
    + right. exists (JObj []). unfold subscript. cbn [dict_get].
      now rewrite str_eqb_refl.
    + right. exists (JList []). unfold subscript. cbn [dict_get].
      now rewrite str_eqb_refl.
Qed.

(** ** Decoding the enumerations *)

Lemma find_record_type (u : pystr) (t : WAPIDomainRecordType.t) :
  find_member WAPIDomainRecordType.members u = Some t <->
  u = WAPIDomainRecordType.value t.
Proof.
  split.
  - unfold WAPIDomainRecordType.members. cbn [find_member].
    repeat match goal with
           | |- context [str_eqb ?v u] =>
               destruct (str_eqb v u) eqn:?;
               [ match goal with
                 | E : str_eqb v u = true |- _ =>
                     apply str_eqb_eq in E; intro H; injection H as <-;
                     symmetry; exact E
                 end | ]
           end.
    discriminate.
  - intros ->. now destruct t.
Qed.

Lemma find_domain_status (u : pystr) (t : WAPIDomainStatus.t) :
  find_member WAPIDomainStatus.members u = Some t <->
  u = WAPIDomainStatus.value t.
Proof.
  split.
  - unfold WAPIDomainStatus.members. cbn [find_member].
    destruct (str_eqb (lit "ACTIVE") u) eqn:E; [|discriminate].
    apply str_eqb_eq in E. destruct t. now symmetry.
  - intros ->. now destruct t.
Qed.

(** An upper-case ASCII letter is its own upper case, and so is the lower-case
    letter 32 places on. *)
Lemma upper_same_letters (s name : pystr) :
  Forall (fun d => in_range 65 90 d = true) name ->
  same_letters s name -> upper s = name.
Proof.
  intros Hname Hsame. induction Hsame as [|c d s name Hcd _ IH]; [reflexivity|].
  inversion Hname as [|? ? Hd Hrest]; subst.
  unfold upper in *. cbn [flat_map]. rewrite (IH Hrest).
  unfold in_range in Hd. apply andb_true_iff in Hd as [Hlo Hhi].
  apply N.leb_le in Hlo, Hhi.
  assert (Hup : upper_char c = [d]).
  { unfold upper_char, in_range, is_ascii. destruct Hcd as [->|[_ ->]].
    - replace (97 <=? d) with false by (symmetry; apply N.leb_gt; lia).
      cbn [andb]. now replace (d <? 128) with true by (symmetry; apply N.ltb_lt; lia).
    - replace (97 <=? d + 32) with true by (symmetry; apply N.leb_le; lia).
      replace (d + 32 <=? 122) with true by (symmetry; apply N.leb_le; lia).
      cbn [andb]. f_equal. lia. }
  now rewrite Hup.
Qed.

Lemma record_type_names_upper (t : WAPIDomainRecordType.t) :
  Forall (fun d => in_range 65 90 d = true) (WAPIDomainRecordType.value t).
Proof. destruct t; repeat constructor. Qed.

Lemma domain_status_names_upper (t : WAPIDomainStatus.t) :
  Forall (fun d => in_range 65 90 d = true) (WAPIDomainStatus.value t).
Proof. destruct t; repeat constructor. Qed.

(** C6.  A record type or a status given as text is matched against the
    names of the enumeration after [upper()]: the result is a member exactly
    when the upper-cased text is that member's name, so every spelling of a
    name in upper- and lower-case letters is accepted; and a text that
    matches no member raises [WAPIError], as "CNAMEX" does.  No member is
    ever returned for a text that is not its name. *)
Theorem enum_decoding (s : pystr) :
  (forall t, __str_to_record_type (JStr s) = Ok t <->
             upper s = WAPIDomainRecordType.value t) /\
  (forall t, same_letters s (WAPIDomainRecordType.value t) ->
             __str_to_record_type (JStr s) = Ok t) /\
  ((exists t, __str_to_record_type (JStr s) = Ok t) \/
   ((forall t, upper s <> WAPIDomainRecordType.value t) /\
    __str_to_record_type (JStr s) =
      Raise (WAPIError (lit "Unknown record type '" ++ upper s ++ lit "'")))) /\
  (forall t, __str_to_domain_status (JStr s) = Ok t <->
             upper s = WAPIDomainStatus.value t) /\
  (forall t, same_letters s (WAPIDomainStatus.value t) ->
             __str_to_domain_status (JStr s) = Ok t) /\
  ((exists t, __str_to_domain_status (JStr s) = Ok t) \/
   ((forall t, upper s <> WAPIDomainStatus.value t) /\
    __str_to_domain_status (JStr s) =
      Raise (WAPIError (lit "Unknown record type '" ++ upper s ++ lit "'")))) /\
  __str_to_record_type (JStr (lit "CNAMEX")) =
    Raise (WAPIError (lit "Unknown record type 'CNAMEX'")) /\
  __str_to_domain_status (JStr (lit "CNAMEX")) =
    Raise (WAPIError (lit "Unknown record type 'CNAMEX'")).
Proof.
  assert (Hrt : forall t, __str_to_record_type (JStr s) = Ok t <->
                          upper s = WAPIDomainRecordType.value t).
  { intro t. unfold __str_to_record_type. cbn [py_upper rbind].
    rewrite <- find_record_type.
    destruct (find_member WAPIDomainRecordType.members (upper s));
      split; intro H; try discriminate; congruence. }
  assert (Hst : forall t, __str_to_domain_status (JStr s) = Ok t <->
                          upper s = WAPIDomainStatus.value t).
  { intro t. unfold __str_to_domain_status. cbn [py_upper rbind].
    rewrite <- find_domain_status.
    destruct (find_member WAPIDomainStatus.members (upper s));
      split; intro H; try discriminate; congruence. }
  split; [exact Hrt|]. split.
  { intros t Hsame. apply Hrt.
    apply upper_same_letters; [apply record_type_names_upper|exact Hsame]. }
  split.
  { unfold __str_to_record_type in *. cbn [py_upper rbind] in *.
    destruct (find_member WAPIDomainRecordType.members (upper s)) as [t|] eqn:E.
    - left. eauto.
    - right. split; [|reflexivity].
      intros t Ht. apply Hrt in Ht. discriminate. }
  split; [exact Hst|]. split.
  { intros t Hsame. apply Hst.
    apply upper_same_letters; [apply domain_status_names_upper|exact Hsame]. }
  split.
  { unfold __str_to_domain_status in *. cbn [py_upper rbind] in *.
    destruct (find_member WAPIDomainStatus.members (upper s)) as [t|] eqn:E.
    - left. eauto.
    - right. split; [|reflexivity].
      intros t Ht. apply Hst in Ht. discriminate. }
  split; reflexivity.
Qed.

(** ** A row, decoded and written back *)

(** C5.  The row [{ID: "5", name: "www", ttl: "1800", rdtype, rdata:
    "1.2.3.4", changed_date: "2024-01-01 00:00:00", author_comment: ""}],
    with the record type spelt "a" or "A" (any text whose upper case is
    "A"), decodes to the record with id 5, ttl 1800, type A and the time
    2024-01-01T00:00:00; written back as a dictionary it shows the date
    "2024-01-01 00:00:00" and the type "A". *)
Theorem row_round_trip (rdtype : pystr) :
  upper rdtype = lit "A" ->
  exists x,
    __row_dict_to_row (example_row rdtype) = Ok x /\
    WAPIDomainRecord.id x = 5%Z /\
    WAPIDomainRecord.ttl x = 1800%Z /\
    WAPIDomainRecord.record_type x = WAPIDomainRecordType.A /\
    WAPIDomainRecord.changed x = midnight /\
    WAPIDomainRecord.name x = JStr (lit "www") /\
    WAPIDomainRecord.content x = JStr (lit "1.2.3.4") /\
    subscript (record_as_dict x) (lit "changed")
      = Ok (JStr (lit "2024-01-01 00:00:00")) /\
    subscript (record_as_dict x) (lit "record_type") = Ok (JStr (lit "A")) /\
    subscript (record_as_dict x) (lit "id") = Ok (JInt 5) /\
    subscript (record_as_dict x) (lit "ttl") = Ok (JInt 1800).
Proof.
  intro Hup.
  assert (Htype : __str_to_record_type (JStr rdtype) = Ok WAPIDomainRecordType.A).
  { unfold __str_to_record_type. cbn [py_upper rbind]. now rewrite Hup. }
  assert (Hrow : __row_dict_to_row (example_row rdtype) =
            rbind (__str_to_record_type (JStr rdtype)) (fun record_type =>
              Ok {| WAPIDomainRecord.id := 5;
                    WAPIDomainRecord.name := JStr (lit "www");
                    WAPIDomainRecord.ttl := 1800;
                    WAPIDomainRecord.record_type := record_type;
                    WAPIDomainRecord.content := JStr (lit "1.2.3.4");
                    WAPIDomainRecord.changed := midnight;
                    WAPIDomainRecord.author_comment := JStr (lit "") |})).
  { vm_compute. reflexivity. }
  rewrite Htype in Hrow. cbn [rbind] in Hrow.
  eexists. split; [exact Hrow|]. cbn.
  repeat split; vm_compute; reflexivity.
Qed.

(** ** The authentication digest *)

Lemma hex_digit_lower (d : N) : d < 16 -> is_lower_hex (hex_digit d) = true.
Proof.
  intro H. destruct d as [|p]; [reflexivity|].
  do 4 (destruct p as [p|p|]; try reflexivity); lia.
Qed.

Lemma hex8_lower (w : N) : forallb is_lower_hex (SHA1.hex8 w) = true.
Proof.
  apply forallb_forall. intros c Hc. unfold SHA1.hex8 in Hc.
  apply in_map_iff in Hc as (i & <- & _).
  apply hex_digit_lower. change 0xF with (N.ones 4).
  rewrite N.land_ones. now apply N.mod_lt.
Qed.

Lemma hexdigest_shape (msg : list N) :
  length (SHA1.hexdigest msg) = 40%nat /\
  forallb is_lower_hex (SHA1.hexdigest msg) = true.
Proof.
  unfold SHA1.hexdigest. split.
  - rewrite !length_app. unfold SHA1.hex8. now rewrite !length_map.
  - rewrite !forallb_app, !hex8_lower. reflexivity.
Qed.

Lemma sha1_hex_shape (s d : pystr) :
  sha1_hex s = Ok d -> length d = 40%nat /\ forallb is_lower_hex d = true.
Proof.
  unfold sha1_hex. destruct (encode_utf8 s); cbn [rbind]; [|discriminate].
  intro H. injection H as <-. apply hexdigest_shape.
Qed.

Lemma pad2_two_digits (h : Z) : (0 <= h < 24)%Z -> pad2 h = two_digits h.
Proof.
  intro H. destruct h as [|p|p]; [reflexivity| |lia].
  do 5 (destruct p as [p|p|]; try reflexivity); lia.
Qed.

(** The digest as [__get_auth] computes it is the chain of the
    specification, at the hour the clock shows. *)
Lemma get_auth_chain self w :
  fst (__get_auth self w) =
    auth_digest (WAPI.__user (store w self)) (WAPI.__key (store w self))
      (strftime_H (clock w (reads w))).
Proof.
  unfold __get_auth, auth_digest, sha1_hex, bind, deref, lift, now, ret.
  cbn [fst snd store reads clock].
  destruct (encode_utf8 (WAPI.__key (store w self))); cbn [rbind fst]; [|reflexivity].
  destruct (encode_utf8 _); reflexivity.
Qed.

(** C2.  The digest is [sha1_hex(user + sha1_hex(key) + hour)], with the
    hour as two digits, UTF-8 at both encodings and forty lower-case
    hexadecimal digits out of both hashes; it depends on the user, the key
    and the hour alone; and it has the values that [hashlib] gives for
    ("user@example.com", "key", "07") and for a user and a key outside
    ASCII at "23". *)
Theorem auth_digest_chain self w :
  let me := store w self in
  let h := hour (clock w (reads w)) in
  (0 <= h < 24)%Z ->
  fst (__get_auth self w) =
    auth_digest (WAPI.__user me) (WAPI.__key me) (two_digits h) /\
  (forall d, fst (__get_auth self w) = Ok d ->
     length d = 40%nat /\ forallb is_lower_hex d = true) /\
  (forall inner, sha1_hex (WAPI.__key me) = Ok inner ->
     length inner = 40%nat /\ forallb is_lower_hex inner = true) /\
  (forall self' w',
     WAPI.__user (store w' self') = WAPI.__user me ->
     WAPI.__key (store w' self') = WAPI.__key me ->
     hour (clock w' (reads w')) = h ->
     fst (__get_auth self' w') = fst (__get_auth self w)) /\
  auth_digest (lit "user@example.com") (lit "key") (lit "07")
    = Ok (lit "b7cf4c707d9c428159ee0fe0c16453446c5b5b20") /\
  auth_digest [382; 108; 117; 357; 111; 117; 269; 107; 253] [107; 108; 237; 269]
    (lit "23") = Ok (lit "78d9350f33ff62846963300bc81f7d923d033005").
Proof.
  intros me h Hh. subst me h.
  assert (Heq : fst (__get_auth self w) =
    auth_digest (WAPI.__user (store w self)) (WAPI.__key (store w self))
      (two_digits (hour (clock w (reads w))))).
  { rewrite get_auth_chain. unfold strftime_H. now rewrite pad2_two_digits. }
  split; [exact Heq|]. split.
  { intros d Hd. rewrite Heq in Hd. unfold auth_digest in Hd.
    destruct (sha1_hex (WAPI.__key (store w self))); cbn [rbind] in Hd;
      [|discriminate].
    now apply sha1_hex_shape in Hd. }
  split; [intros inner Hi; now apply sha1_hex_shape in Hi|]. split.
  { intros self' w' Hu Hk Hhour. rewrite !get_auth_chain.
    unfold strftime_H. now rewrite Hu, Hk, Hhour. }
  split; vm_compute; reflexivity.
Qed.

End Properties.

(** * The statements at work

    Each lemma below runs one of the theorems above in a concrete world: one
    client ("user@example.com", "key"), the clock at 07:30, and an endpoint
    with a fixed answer. *)

Lemma answered_in_world_of (kvs : list (pystr * json)) :
  answered (world_of a_client (response_of kvs)) 0%nat (lit "ping") JNull None
    (JObj kvs).
Proof.
  exists (lit "b7cf4c707d9c428159ee0fe0c16453446c5b5b20"),
         (JObj [(lit "response", JObj kvs)]).
  split; [vm_compute; reflexivity|]. split; reflexivity.
Defined.

Lemma complete_envelope_with (code data : json) :
  complete (P := plain_platform) (envelope_with code data).
Proof.
  split.
  - intros k Hk. cbn in Hk.
    repeat (destruct Hk as [<-|Hk]; [vm_compute; discriminate|]). contradiction.
  - intros v Hv. vm_compute in Hv. discriminate.
Defined.

(** With the code "1000" and a complete envelope the call returns a
    response that carries the code. *)
Lemma make_request_by_status_code_example :
  exists r,
    fst (make_request (P := plain_platform) 0%nat (lit "ping") JNull None
           (world_of a_client (response_of (envelope_with (JStr (lit "1000")) JNull))))
      = Ok r /\
    WAPIResponse.code r = JStr (lit "1000").
Proof.
  destruct (make_request_by_status_code (P := plain_platform) _ _ _ _ _ _
              (answered_in_world_of (envelope_with (JStr (lit "1000")) JNull)))
    as (_ & Hok & _).
  apply Hok; [reflexivity|apply complete_envelope_with].
Defined.

(** A success code is not enough.  With the code "1000" alone,
    [resp['result']] raises [KeyError]; with every field there and [null]
    for the test flag, [int(None)] raises [TypeError].  Either way the call
    neither returns nor raises [WAPIError], though the string form of the
    code starts with "1". *)
Lemma make_request_success_code_without_result :
  let bare := [(lit "code", JStr (lit "1000"))] in
  let null_flag := envelope_with (JStr (lit "1000")) JNull ++ [(lit "test", JNull)] in
  let call kvs :=
    fst (make_request (P := plain_platform) 0%nat (lit "ping") JNull None
           (world_of a_client (response_of kvs))) in
  call bare = Raise (KeyError (lit "result")) /\
  call null_flag = Raise TypeError /\
  success_code (P := plain_platform) (code_of bare) = true /\
  success_code (P := plain_platform) (code_of null_flag) = true /\
  ~ ((exists r, call bare = Ok r)
     <-> success_code (P := plain_platform) (code_of bare) = true) /\
  ~ ((exists r, call null_flag = Ok r)
     <-> success_code (P := plain_platform) (code_of null_flag) = true).
Proof.
  cbv zeta.
  assert (H1 : fst (make_request (P := plain_platform) 0%nat (lit "ping") JNull None
                      (world_of a_client
                         (response_of [(lit "code", JStr (lit "1000"))])))
               = Raise (KeyError (lit "result"))).
  { vm_compute. reflexivity. }
  assert (H2 : fst (make_request (P := plain_platform) 0%nat (lit "ping") JNull None
                      (world_of a_client
                         (response_of (envelope_with (JStr (lit "1000")) JNull
                                       ++ [(lit "test", JNull)]))))
               = Raise TypeError).
  { vm_compute. reflexivity. }
  split; [exact H1|]. split; [exact H2|].
  split; [reflexivity|]. split; [reflexivity|]. split.
  - intros [_ Hif]. destruct (Hif eq_refl) as [r Hr]. rewrite H1 in Hr. discriminate.
  - intros [_ Hif]. destruct (Hif eq_refl) as [r Hr]. rewrite H2 in Hr. discriminate.
Qed.

(** An envelope with no code at all. *)
Lemma make_request_missing_code_example :
  fst (make_request (P := plain_platform) 0%nat (lit "ping") JNull None
         (world_of a_client (response_of [(lit "result", JStr (lit "?"))])))
    = Raise (WAPIError (lit "WAPI error: {" ++ [34] ++ lit "result" ++ [34]
                        ++ lit ": " ++ [34] ++ lit "?" ++ [34] ++ lit "}")).
Proof.
  destruct (make_request_missing_code (P := plain_platform) _ _ _ _ _ _
              (answered_in_world_of [(lit "result", JStr (lit "?"))]) eq_refl)
    as [_ H].
  rewrite H. vm_compute. reflexivity.
Defined.

(** [ping] against a refusal, a success and a dead line. *)
Lemma ping_examples :
  fst (ping (P := plain_platform) 0%nat
         (world_of a_client (response_of (envelope_with (JStr (lit "2999")) JNull))))
    = Ok false /\
  fst (ping (P := plain_platform) 0%nat
         (world_of a_client (response_of (envelope_with (JInt 1000) JNull))))
    = Ok true /\
  fst (ping (P := plain_platform) 0%nat
         (world_of a_client (Failed (lit "ConnectionError"))))
    = Raise (TransportError (lit "ConnectionError")).
Proof.
  split; [|split].
  - destruct (ping_by_make_request (P := plain_platform) 0%nat
                (world_of a_client (response_of (envelope_with (JStr (lit "2999")) JNull))))
      as (_ & _ & _ & _ & H & _).
    now apply (H _ (answered_in_world_of _)).
  - destruct (ping_by_make_request (P := plain_platform) 0%nat
                (world_of a_client (response_of (envelope_with (JInt 1000) JNull))))
      as (_ & _ & _ & _ & H & _).
    apply (H _ (answered_in_world_of _)); [reflexivity|apply complete_envelope_with].
  - destruct (ping_by_make_request (P := plain_platform) 0%nat
                (world_of a_client (Failed (lit "ConnectionError"))))
      as (_ & _ & _ & _ & _ & H).
    apply (H (lit "b7cf4c707d9c428159ee0fe0c16453446c5b5b20")); [|reflexivity].
    vm_compute. reflexivity.
Defined.

(** A success code does not make [ping] answer [True].  With the code "1000"
    alone, [resp['result']] raises [KeyError], which [except WAPIError] does
    not catch; with every field there and [null] for the test flag,
    [int(None)] raises [TypeError].  [ping] raises both to its caller. *)
Lemma ping_success_code_without_result :
  let bare := [(lit "code", JStr (lit "1000"))] in
  let null_flag := envelope_with (JStr (lit "1000")) JNull ++ [(lit "test", JNull)] in
  let call kvs :=
    fst (ping (P := plain_platform) 0%nat (world_of a_client (response_of kvs))) in
  call bare = Raise (KeyError (lit "result")) /\
  call null_flag = Raise TypeError /\
  success_code (P := plain_platform) (code_of bare) = true /\
  success_code (P := plain_platform) (code_of null_flag) = true /\
  ~ (success_code (P := plain_platform) (code_of bare) = true ->
     call bare = Ok true) /\
  ~ (success_code (P := plain_platform) (code_of null_flag) = true ->
     call null_flag = Ok true).
Proof.
  cbv zeta.
  assert (H1 : fst (ping (P := plain_platform) 0%nat
                      (world_of a_client
                         (response_of [(lit "code", JStr (lit "1000"))])))
               = Raise (KeyError (lit "result"))).
  { vm_compute. reflexivity. }
  assert (H2 : fst (ping (P := plain_platform) 0%nat
                      (world_of a_client
                         (response_of (envelope_with (JStr (lit "1000")) JNull
                                       ++ [(lit "test", JNull)]))))
               = Raise TypeError).
  { vm_compute. reflexivity. }
  split; [exact H1|]. split; [exact H2|].
  split; [reflexivity|]. split; [reflexivity|]. split.
  - intro Hif. rewrite H1 in Hif. specialize (Hif eq_refl). discriminate.
  - intro Hif. rewrite H2 in Hif. specialize (Hif eq_refl). discriminate.
Qed.

(** The digest of the example client at seven o'clock. *)
Lemma auth_digest_chain_example :
  fst (__get_auth 0%nat (world_of a_client (Failed [])))
    = Ok (lit "b7cf4c707d9c428159ee0fe0c16453446c5b5b20").
Proof.
  destruct (auth_digest_chain 0%nat (world_of a_client (Failed [])))
    as [H _]; [cbn; lia|].
  rewrite H. vm_compute. reflexivity.
Defined.

(** The row of the example, with the type in lower case. *)
Lemma row_round_trip_example :
  upper (P := plain_platform) (lit "a") = lit "A" /\
  upper (P := plain_platform) (lit "A") = lit "A" /\
  exists x,
    __row_dict_to_row (P := plain_platform) (example_row (lit "a")) = Ok x /\
    WAPIDomainRecord.id x = 5%Z /\
    WAPIDomainRecord.ttl x = 1800%Z /\
    WAPIDomainRecord.record_type x = WAPIDomainRecordType.A /\
    WAPIDomainRecord.changed x = midnight /\
    subscript (record_as_dict (P := plain_platform) x) (lit "changed")
      = Ok (JStr (lit "2024-01-01 00:00:00")) /\
    subscript (record_as_dict (P := plain_platform) x) (lit "record_type")
      = Ok (JStr (lit "A")).
Proof.
  split; [reflexivity|]. split; [reflexivity|].
  destruct (row_round_trip (P := plain_platform) (lit "a") eq_refl)
    as (x & H1 & H2 & H3 & H4 & H5 & _ & _ & H8 & H9 & _).
  exists x. repeat split; assumption.
Defined.

(** "sShFp" is SSHFP, "active" is ACTIVE. *)
Lemma enum_decoding_example :
  __str_to_record_type (P := plain_platform) (JStr (lit "sShFp"))
    = Ok WAPIDomainRecordType.SSHFP /\
  __str_to_domain_status (P := plain_platform) (JStr (lit "active"))
    = Ok WAPIDomainStatus.ACTIVE.
Proof.
  split.
  - destruct (enum_decoding (P := plain_platform) (lit "sShFp")) as (_ & H & _).
    apply H. unfold same_letters.
    repeat (constructor; [first [left; reflexivity|right; split; reflexivity]|]).
    constructor.
  - destruct (enum_decoding (P := plain_platform) (lit "active"))
      as (_ & _ & _ & _ & H & _).
    apply H. unfold same_letters.
    repeat (constructor; [first [left; reflexivity|right; split; reflexivity]|]).
    constructor.
Defined.

(** A listing answered with no payload, and one with an empty collection. *)
Lemma listing_of_nothing_example :
  fst (domains (P := plain_platform) 0%nat
         (world_of a_client (response_of (envelope_with (JInt 1000) JNull))))
    = Ok empty /\
  fst (records (P := plain_platform)
         (WAPIDomain_init (JStr (lit "example.com")) 0%nat None None)
         (world_of a_client
            (response_of (envelope_with (JInt 1000) (JObj [(lit "row", JList [])])))))
    = Ok empty.
Proof.
  split.
  - destruct (listing_of_nothing (P := plain_platform) 0%nat
                (WAPIDomain_init (JStr (lit "example.com")) 0%nat None None)
                (world_of a_client (response_of (envelope_with (JInt 1000) JNull))))
      as (H & _).
    rewrite (H (response_with (JInt 1000) JNull)
               (snd (make_request (P := plain_platform) 0%nat
                       (lit "dns-domains-list") JNull None
                       (world_of a_client
                          (response_of (envelope_with (JInt 1000) JNull)))))).
    + reflexivity.
    + vm_compute. reflexivity.
    + left. reflexivity.
  - destruct (listing_of_nothing (P := plain_platform) 0%nat
                (WAPIDomain_init (JStr (lit "example.com")) 0%nat None None)
                (world_of a_client
                   (response_of
                      (envelope_with (JInt 1000) (JObj [(lit "row", JList [])])))))
      as (_ & H & _).
    destruct (H (response_with (JInt 1000) (JObj [(lit "row", JList [])]))
                (snd (make_request (P := plain_platform) 0%nat
                        (lit "dns-rows-list")
                        (JObj [(lit "domain", JStr (lit "example.com"))]) None
                        (world_of a_client
                           (response_of
                              (envelope_with (JInt 1000)
                                 (JObj [(lit "row", JList [])]))))))) as [Hr _].
    + vm_compute. reflexivity.
    + right. exists (JList []). split; reflexivity.
    + rewrite Hr. reflexivity.
Defined.

(** * Further properties *)

Section Further.

Context {P : Platform}.

(** ** What a returned response holds *)

Lemma check_response_inversion (kvs : list (pystr * json)) (r : WAPIResponse.t) :
  check_response (JObj kvs) = Ok r ->
  success_code (code_of kvs) = true /\
  complete kvs /\
  dict_get kvs (lit "code") = Some (WAPIResponse.code r) /\
  dict_get kvs (lit "result") = Some (WAPIResponse.result r) /\
  dict_get kvs (lit "timestamp") = Some (WAPIResponse.timestamp r) /\
  dict_get kvs (lit "clTRID") = Some (WAPIResponse.command_id r) /\
  dict_get kvs (lit "svTRID") = Some (WAPIResponse.server_command_id r) /\
  dict_get kvs (lit "command") = Some (WAPIResponse.command r) /\
  WAPIResponse.data r =
    match dict_get kvs (lit "data") with Some d => d | None => JNull end /\
  (WAPIResponse.test r = true <->
   py_int (match dict_get kvs (lit "test") with Some t => t | None => JInt 0 end)
   = Ok 1%Z).
Proof.
  unfold check_response, success_code.
  pose proof (status_code_of kvs) as Hc. unfold status_code in Hc. rewrite Hc.
  cbn [rbind].
  destruct (startswith (lit "1") (py_str (code_of kvs))); [|discriminate].
  unfold subscript, get_default.
  destruct (dict_get kvs (lit "code")) as [v0|] eqn:E0; [|discriminate].
  destruct (dict_get kvs (lit "result")) as [v1|] eqn:E1; [|discriminate].
  destruct (dict_get kvs (lit "timestamp")) as [v2|] eqn:E2; [|discriminate].
  destruct (dict_get kvs (lit "clTRID")) as [v3|] eqn:E3; [|discriminate].
  destruct (dict_get kvs (lit "svTRID")) as [v4|] eqn:E4; [|discriminate].
  destruct (dict_get kvs (lit "command")) as [v5|] eqn:E5; [|discriminate].
  cbn [rbind].
  set (data := match dict_get kvs (lit "data") with Some d => d | None => JNull end).
  replace (match dict_get kvs (lit "data") with Some x => Ok x | None => Ok JNull end)
    with (Ok data) by (subst data; now destruct (dict_get kvs (lit "data"))).
  set (flag := match dict_get kvs (lit "test") with Some t => t | None => JInt 0 end).
  replace (match dict_get kvs (lit "test") with Some x => Ok x | None => Ok (JInt 0) end)
    with (Ok flag) by (subst flag; now destruct (dict_get kvs (lit "test"))).
  cbn [rbind].
  destruct (py_int flag) as [n|e] eqn:En; cbn [rbind]; [|discriminate].
  intro H. injection H as <-. cbn.
  split; [reflexivity|]. split.
  { split.
    - intros k Hk. cbn [In] in Hk.
      repeat (destruct Hk as [<-|Hk]; [congruence|]). contradiction.
    - intros v Hv. subst flag. rewrite Hv in En. eauto. }
  repeat split; try reflexivity.
  - intro Hn. apply Z.eqb_eq in Hn. now subst n.
  - intro Hn. injection Hn as ->. reflexivity.
Qed.

(** X1.  Of an envelope the endpoint answers with, [make_request] returns a
    response exactly when the code is a success code and the envelope is
    complete; the response then holds the envelope's code, result, timestamp,
    [clTRID], [svTRID] and command, its data or [None], and the flag
    [int(test) == 1]. *)
Theorem make_request_returns_exactly w self command data command_id kvs :
  answered w self command data command_id (JObj kvs) ->
  ((exists r, fst (make_request self command data command_id w) = Ok r) <->
   success_code (code_of kvs) = true /\ complete kvs) /\
  (forall r,
     fst (make_request self command data command_id w) = Ok r ->
     dict_get kvs (lit "code") = Some (WAPIResponse.code r) /\
     dict_get kvs (lit "result") = Some (WAPIResponse.result r) /\
     dict_get kvs (lit "timestamp") = Some (WAPIResponse.timestamp r) /\
     dict_get kvs (lit "clTRID") = Some (WAPIResponse.command_id r) /\
     dict_get kvs (lit "svTRID") = Some (WAPIResponse.server_command_id r) /\
     dict_get kvs (lit "command") = Some (WAPIResponse.command r) /\
     WAPIResponse.data r =
       match dict_get kvs (lit "data") with Some d => d | None => JNull end /\
     (WAPIResponse.test r = true <->
      py_int (match dict_get kvs (lit "test") with Some t => t | None => JInt 0 end)
      = Ok 1%Z)).
Proof.
  intro Hans. rewrite (make_request_answered _ _ _ _ _ _ Hans). split.
  - split.
    + intros [r Hr]. apply check_response_inversion in Hr. tauto.
    + intros [Hs Hfull].
      destruct (check_response_success kvs (code_of kvs) (status_code_of kvs) Hs Hfull)
        as (r & Hr & _).
      eauto.
  - intros r Hr. apply check_response_inversion in Hr. tauto.
Qed.

(** ** One request per operation *)

Lemma run_is_its_request op w self command data command_id :
  request_made op = Some (self, command, data, command_id) ->
  run op w = snd (make_request self command data command_id w).
Proof.
  destruct op; cbn [request_made run]; intro H; try discriminate;
    injection H as <- <- <- <-.
  - reflexivity.
  - unfold ping. now destruct (make_request _ _ _ _ w) as [[r|[]] w1].
  - unfold domains. now destruct (make_request _ _ _ _ w) as [[r|e] w1].
  - unfold records, bind. destruct (make_request _ _ _ _ w) as [[r|e] w1];
      [|reflexivity].
    destruct (negb (truthy (WAPIResponse.data r))); [reflexivity|].
    unfold lift. destruct (subscript _ _) as [c|e]; [|reflexivity].
    destruct (negb (truthy c)); [reflexivity|].
    now destruct (py_iter c).
  - unfold records_as_dict, records, bind.
    destruct (make_request _ _ _ _ w) as [[r|e] w1]; [|reflexivity].
    destruct (negb (truthy (WAPIResponse.data r))); [reflexivity|].
    unfold lift. destruct (subscript _ _) as [c|e]; [|reflexivity].
    destruct (negb (truthy c)); [reflexivity|].
    now destruct (py_iter c).
  - unfold add_record, bind. now destruct (make_request _ _ _ _ w) as [[r|e] w1].
  - unfold remove_record, bind. now destruct (make_request _ _ _ _ w) as [[r|e] w1].
  - unfold commit, bind. now destruct (make_request _ _ _ _ w) as [[r|e] w1].
Qed.

(** X2.  An operation hands exactly one document to the endpoint, whatever
    comes back: the envelope of its command and data, with the client's user
    and test flag as they are at the call.  It hands over none when the
    digest cannot be computed, and [set_test_mode] and [open_domain] never
    do. *)
Theorem one_request_per_operation (op : operation) (w : world) :
  match request_made op with
  | None => posted (run op w) = posted w
  | Some (self, command, data, command_id) =>
      (forall auth,
         fst (__get_auth self w) = Ok auth ->
         posted (run op w) =
           envelope (request_of (store w self) command data command_id auth)
           :: posted w) /\
      (forall e,
         fst (__get_auth self w) = Raise e -> posted (run op w) = posted w)
  end.
Proof.
  destruct (request_made op) as [[[[self command] data] command_id]|] eqn:E.
  - rewrite (run_is_its_request _ _ _ _ _ _ E). split.
    + intros auth Ha. now apply make_request_run.
    + intros e He.
      now destruct (make_request_no_auth self command data command_id w e He).
  - destruct op; try discriminate; reflexivity.
Qed.

(** X3.  An operation fails as its request fails: the exception
    [make_request] raises is the one the operation raises, or the one that
    stops its iteration; [ping] alone turns [WAPIError] into an answer.  When
    the request returns, [ping], [add_record], [remove_record] and [commit]
    do not fail. *)
Theorem failure_is_the_requests (op : operation) (w : world)
    self command data command_id :
  request_made op = Some (self, command, data, command_id) ->
  (forall e,
     fst (make_request self command data command_id w) = Raise e ->
     failure op w =
       match op with
       | Ping _ => if is_WAPIError e then None else Some e
       | _ => Some e
       end) /\
  (forall r,
     fst (make_request self command data command_id w) = Ok r ->
     match op with
     | Domains _ | Records _ | Records_as_dict _ => True
     | _ => failure op w = None
     end).
Proof.
  destruct op; cbn [request_made]; intro H; try discriminate;
    injection H as <- <- <- <-; cbn [failure];
    unfold ping, domains, records_as_dict, records, add_record, remove_record,
      commit, bind;
    (split; [intros e He|intros r Hr]);
    destruct (make_request _ _ _ _ w) as [[r'|e'] w1]; cbn [fst] in *;
    try discriminate; try exact I;
    try (injection He as ->); try reflexivity.
  now destruct e.
Qed.

(** ** Lazy sequences *)

(** Going through [map(f, xs)] gives the images of a prefix of [xs]; it ends
    with [xs], or at the first item [f] fails on, with that exception. *)
Lemma lazy_map_prefix {T U} (f : T -> result U) (xs : list T) :
  Forall2 (fun x y => f x = Ok y)
    (firstn (length (items (lazy_map f xs))) xs) (items (lazy_map f xs)) /\
  match stopped (lazy_map f xs) with
  | None => length (items (lazy_map f xs)) = length xs
  | Some e =>
      exists x, nth_error xs (length (items (lazy_map f xs))) = Some x /\
                f x = Raise e
  end.
Proof.
  induction xs as [|x xs [IHitems IHstop]]; cbn [lazy_map].
  - split; [constructor|reflexivity].
  - destruct (f x) as [y|e] eqn:E; cbn.
    + split; [now constructor|].
      destruct (stopped (lazy_map f xs)); [exact IHstop|now f_equal].
    + split; [constructor|]. now exists x.
Qed.

Lemma subscript_truthy v k c : subscript v k = Ok c -> truthy v = true.
Proof.
  unfold subscript. destruct v; try discriminate.
  destruct kvs; [discriminate|reflexivity].
Qed.

(** X4.  [records] returns as soon as the rows are listed; the rows are
    decoded as the result is gone through, in order, and a row that cannot
    be decoded stops the iteration with its exception after the records of
    the rows before it were produced.  [records_as_dict] is the same
    sequence, each record written as a dictionary. *)
Theorem records_stop_at_first_bad_row (d : WAPIDomain.t) w r w' rows :
  make_request (WAPIDomain.__api d) (lit "dns-rows-list")
    (JObj [(lit "domain", WAPIDomain.__domain d)]) None w = (Ok r, w') ->
  subscript (WAPIResponse.data r) (lit "row") = Ok (JList rows) ->
  rows <> [] ->
  exists it,
    records d w = (Ok it, w') /\
    Forall2 (fun row x => __row_dict_to_row row = Ok x)
      (firstn (length (items it)) rows) (items it) /\
    match stopped it with
    | None => length (items it) = length rows
    | Some e =>
        exists row, nth_error rows (length (items it)) = Some row /\
                    __row_dict_to_row row = Raise e
    end /\
    records_as_dict d w =
      (Ok {| items := map record_as_dict (items it); stopped := stopped it |}, w').
Proof.
  intros Hreq Hrow Hne.
  assert (Hrec : records d w = (Ok (lazy_map __row_dict_to_row rows), w')).
  { unfold records, bind. rewrite Hreq.
    rewrite (subscript_truthy _ _ _ Hrow). cbn [negb]. unfold lift.
    rewrite Hrow. destruct rows; [contradiction|reflexivity]. }
  exists (lazy_map __row_dict_to_row rows).
  destruct (lazy_map_prefix __row_dict_to_row rows) as [Hitems Hstop].
  repeat split; try assumption.
  unfold records_as_dict. now rewrite Hrec.
Qed.

(** ** Listed domains *)

Lemma domain_of_dict_inversion self entry d :
  domain_of_dict self entry = Ok d ->
  exists name type,
    subscript entry (lit "name") = Ok name /\
    subscript entry (lit "type") = Ok type /\
    d = WAPIDomain_init name self (Some (eq_str type (lit "primary")))
          (Some WAPIDomainStatus.ACTIVE).
Proof.
  unfold domain_of_dict.
  destruct (subscript entry (lit "name")) as [name|]; cbn [rbind]; [|discriminate].
  destruct (subscript entry (lit "type")) as [type|]; cbn [rbind]; [|discriminate].
  destruct (subscript entry (lit "status")) as [status|]; cbn [rbind]; [|discriminate].
  destruct (__str_to_domain_status status) as [[]|]; cbn [rbind]; [|discriminate].
  intro H. injection H as <-. eauto.
Qed.

(** X5.  When the domains are listed, the handles come in the order of the
    provider's entries, one per entry up to the first that cannot be
    decoded; each refers to the client that listed it, is named as its entry
    says, is primary exactly when the entry's type is "primary", and is
    ACTIVE. *)
Theorem listed_domains_follow_entries self w r w' entries :
  make_request self (lit "dns-domains-list") JNull None w = (Ok r, w') ->
  subscript (WAPIResponse.data r) (lit "domain") = Ok (JObj entries) ->
  entries <> [] ->
  exists it,
    domains self w = (Ok it, w') /\
    Forall2
      (fun entry d =>
         WAPIDomain.__api d = self /\
         subscript entry (lit "name") = Ok (domain_name d) /\
         (exists type, subscript entry (lit "type") = Ok type /\
                       WAPIDomain.__is_primary d = Some (eq_str type (lit "primary"))) /\
         WAPIDomain.__status d = Some WAPIDomainStatus.ACTIVE)
      (firstn (length (items it)) (map snd entries)) (items it) /\
    match stopped it with
    | None => length (items it) = length entries
    | Some e =>
        exists entry,
          nth_error (map snd entries) (length (items it)) = Some entry /\
          domain_of_dict self entry = Raise e
    end.
Proof.
  intros Hreq Hdom Hne.
  exists (lazy_map (domain_of_dict self) (map snd entries)).
  destruct (lazy_map_prefix (domain_of_dict self) (map snd entries)) as [Hitems Hstop].
  split; [|split].
  - unfold domains. rewrite Hreq. unfold domains_of_data.
    rewrite (subscript_truthy _ _ _ Hdom). cbn [negb]. rewrite Hdom.
    destruct entries; [contradiction|reflexivity].
  - eapply Forall2_impl; [|exact Hitems].
    intros entry d Hd. apply domain_of_dict_inversion in Hd as (name & type & Hn & Ht & ->).
    cbn. eauto 6.
  - destruct (stopped _); [exact Hstop|].
    now rewrite Hstop, length_map.
Qed.

(** X6.  The text of a domain: a handle from [open_domain] reads
    [Domain<name>]; a listed domain reads [Domain<name, PRIMARY, ACTIVE>], or
    SECONDARY when the provider's type is not "primary". *)
Theorem domain_text (self : ref) :
  (forall name w d,
     fst (open_domain self name w) = Ok d ->
     __str__ d = lit "Domain<" ++ name ++ lit ">" /\ __repr__ d = __str__ d) /\
  (forall entry d,
     domain_of_dict self entry = Ok d ->
     exists name type,
       subscript entry (lit "name") = Ok name /\
       subscript entry (lit "type") = Ok type /\
       __str__ d =
         lit "Domain<" ++ py_str name ++ lit ", "
         ++ (if eq_str type (lit "primary") then lit "PRIMARY" else lit "SECONDARY")
         ++ lit ", ACTIVE>").
Proof.
  split.
  - intros name w d H. cbn in H. injection H as <-. split; reflexivity.
  - intros entry d Hd.
    apply domain_of_dict_inversion in Hd as (name & type & Hn & Ht & ->).
    exists name, type. repeat split; try assumption.
    unfold __str__. cbn [WAPIDomain_init WAPIDomain.__domain WAPIDomain.__is_primary
                          WAPIDomain.__status WAPIDomainStatus.value].
    rewrite <- !app_assoc. reflexivity.
Qed.

(** ** Rows that cannot be decoded *)

Lemma py_int_failure v e :
  py_int v = Raise e -> e = TypeError \/ e = ValueError \/ e = OverflowError.
Proof.
  unfold py_int. destruct v; try discriminate; try (intro H; injection H as <-; tauto).
  - destruct (float_int f); [discriminate| |]; intro H; injection H as <-; tauto.
  - destruct (forallb is_ascii s).
    + unfold int_ascii.
      match goal with |- context [match ?x with Some _ => _ | None => _ end] =>
        destruct x end; [discriminate|].
      intro H. injection H as <-. tauto.
    + destruct (int_other s); [discriminate|]. intro H. injection H as <-. tauto.
Qed.

Lemma strptime_failure v e :
  strptime v = Raise e -> e = TypeError \/ e = ValueError.
Proof.
  unfold strptime. destruct v; try (intro H; injection H as <-; tauto).
  destruct (forallb is_ascii s).
  - unfold strptime_ascii.
    repeat match goal with
           | |- context [match ?x with _ => _ end] => destruct x
           end;
      try discriminate; intro H; injection H as <-; tauto.
  - destruct (strptime_other s); [discriminate|]. intro H. injection H as <-. tauto.
Qed.

Lemma str_to_record_type_failure v e :
  __str_to_record_type v = Raise e ->
  e = AttributeError \/
  exists s, v = JStr s /\
            (forall t, upper s <> WAPIDomainRecordType.value t) /\
            e = WAPIError (lit "Unknown record type '" ++ upper s ++ lit "'").
Proof.
  unfold __str_to_record_type.
  destruct v; cbn [py_upper rbind]; try (intro H; injection H as <-; tauto).
  destruct (find_member WAPIDomainRecordType.members (upper s)) as [t|] eqn:E;
    [discriminate|].
  intro H. injection H as <-. right. exists s. repeat split.
  intros t Ht. apply find_record_type in Ht. congruence.
Qed.

(** The seven fields of a row, in the order they are read. *)
Lemma row_field_missing (kvs : list (pystr * json)) k e :
  subscript (JObj kvs) k = Raise e -> e = KeyError k /\ dict_get kvs k = None.
Proof.
  unfold subscript. destruct (dict_get kvs k); [discriminate|].
  intro H. injection H as <-. auto.
Qed.

(** A step of the decoder that fails on a missing field, and one that fails
    on a field's value. *)
Ltac missing_field H E kvs :=
  injection H as <-; apply row_field_missing in E as [-> E];
  repeat split; intros; try discriminate; try tauto;
  [ match goal with
    | Hk : KeyError _ = KeyError _ |- _ => injection Hk as <-
    end; cbn [In]; tauto
  | match goal with
    | Hk : KeyError _ = KeyError _ |- _ => injection Hk as <-
    end; now exists kvs
  | right; right; right; right; left; eauto ].

Ltac bad_value H E lemma :=
  injection H as <-; apply lemma in E;
  repeat split; intros; subst; try tauto;
  repeat match goal with
         | E' : _ \/ _ |- _ => destruct E' as [E'|E']
         end; subst; try discriminate; tauto.

(** X7.  A row fails to decode in one of these ways only: with [TypeError]
    when it is not a dictionary; with [KeyError] for one of its seven
    fields, which is then missing; with [WAPIError] only for a record type
    that is a text matching no member; and otherwise with the
    [TypeError], [ValueError], [OverflowError] or [AttributeError] of a
    field of the wrong kind or form. *)
Theorem row_decoding_failures (row : json) (e : exn) :
  __row_dict_to_row row = Raise e ->
  ((forall kvs, row <> JObj kvs) -> e = TypeError) /\
  (forall k, e = KeyError k ->
     In k [lit "ID"; lit "name"; lit "ttl"; lit "rdtype"; lit "rdata";
           lit "changed_date"; lit "author_comment"] /\
     exists kvs, row = JObj kvs /\ dict_get kvs k = None) /\
  (forall msg, e = WAPIError msg ->
     exists s, subscript row (lit "rdtype") = Ok (JStr s) /\
               (forall t, upper s <> WAPIDomainRecordType.value t) /\
               msg = lit "Unknown record type '" ++ upper s ++ lit "'") /\
  (e = TypeError \/ e = ValueError \/ e = OverflowError \/ e = AttributeError \/
   (exists k, e = KeyError k) \/ (exists msg, e = WAPIError msg)).
Proof.
  unfold __row_dict_to_row.
  destruct row as [| | | | | |kvs];
    try (cbn [subscript rbind]; intro H; injection H as <-;
         repeat split; intros; try discriminate; tauto).
  intro H.
  assert (Hdict : (forall kvs', JObj kvs <> JObj kvs') -> e = TypeError).
  { intro Hn. now contradiction (Hn kvs). }
  destruct (subscript (JObj kvs) (lit "ID")) as [ID|] eqn:E1; cbn [rbind] in H;
    [|missing_field H E1 kvs].
  destruct (py_int ID) as [id|] eqn:E2; cbn [rbind] in H;
    [|bad_value H E2 py_int_failure].
  destruct (subscript (JObj kvs) (lit "name")) as [name|] eqn:E3; cbn [rbind] in H;
    [|missing_field H E3 kvs].
  destruct (subscript (JObj kvs) (lit "ttl")) as [ttl|] eqn:E4; cbn [rbind] in H;
    [|missing_field H E4 kvs].
  destruct (py_int ttl) as [ttl'|] eqn:E5; cbn [rbind] in H;
    [|bad_value H E5 py_int_failure].
  destruct (subscript (JObj kvs) (lit "rdtype")) as [rdtype|] eqn:E6; cbn [rbind] in H;
    [|missing_field H E6 kvs].
  destruct (__str_to_record_type rdtype) as [record_type|] eqn:E7; cbn [rbind] in H.
  2:{ injection H as <-. apply str_to_record_type_failure in E7.
      destruct E7 as [->|(s & -> & Hs & ->)].
      - repeat split; intros; try discriminate; tauto.
      - repeat split; intros; try discriminate; try tauto.
        + injection H as <-. exists s. auto.
        + right; right; right; right; right. eauto. }
  destruct (subscript (JObj kvs) (lit "rdata")) as [content|] eqn:E8; cbn [rbind] in H;
    [|missing_field H E8 kvs].
  destruct (subscript (JObj kvs) (lit "changed_date")) as [date|] eqn:E9;
    cbn [rbind] in H; [|missing_field H E9 kvs].
  destruct (strptime date) as [changed|] eqn:E10; cbn [rbind] in H;
    [|bad_value H E10 strptime_failure].
  destruct (subscript (JObj kvs) (lit "author_comment")) as [comment|] eqn:E11;
    cbn [rbind] in H; [|missing_field H E11 kvs].
  discriminate.
Qed.

(** ** Credentials that cannot be encoded *)

Lemma utf8_char_encodable (c : N) :
  (encodable c = true -> exists bs, utf8_char c = Ok bs) /\
  (encodable c = false -> utf8_char c = Raise UnicodeEncodeError).
Proof.
  unfold encodable, utf8_char.
  destruct (N.ltb_spec c 0x80), (N.ltb_spec c 0x800), (N.ltb_spec c 0xD800),
    (N.leb_spec 0xD800 c), (N.leb_spec c 0xDFFF), (N.ltb_spec 0xDFFF c),
    (N.ltb_spec c 0x10000), (N.ltb_spec c 0x110000);
    cbn; split; intro; eauto; try discriminate; lia.
Qed.

Lemma encode_utf8_encodable (s : pystr) :
  (forallb encodable s = true -> exists bs, encode_utf8 s = Ok bs) /\
  (forallb encodable s = false -> encode_utf8 s = Raise UnicodeEncodeError).
Proof.
  induction s as [|c s [IHok IHbad]]; cbn [forallb encode_utf8].
  - split; [eauto|discriminate].
  - destruct (utf8_char_encodable c) as [Hok Hbad].
    destruct (encodable c); cbn [andb].
    + destruct (Hok eq_refl) as [bs ->]. split.
      * intro H. destruct (IHok H) as [more ->]. eauto.
      * intro H. now rewrite (IHbad H).
    + rewrite (Hbad eq_refl). split; [discriminate|reflexivity].
Qed.

Lemma uint_digits_encodable (u : Decimal.uint) :
  forallb encodable (uint_digits u) = true.
Proof. induction u; cbn [uint_digits forallb]; try rewrite IHu; reflexivity. Qed.

Lemma pad2_encodable (n : Z) : forallb encodable (pad2 n) = true.
Proof.
  unfold pad2, str_of_Z, str_of_N.
  destruct (n <? 10)%Z, n; cbn [forallb]; now rewrite ?uint_digits_encodable.
Qed.

Lemma lower_hex_encodable (l : pystr) :
  forallb is_lower_hex l = true -> forallb encodable l = true.
Proof.
  rewrite !forallb_forall. intros H c Hc. specialize (H c Hc).
  unfold is_lower_hex, in_range in H. unfold encodable.
  apply orb_true_iff. left. apply N.ltb_lt.
  apply orb_true_iff in H as [H|H]; apply andb_true_iff in H as [_ H];
    apply N.leb_le in H; lia.
Qed.

(** X8.  The digest can be computed exactly when every code point of the
    key and of the user has a UTF-8 encoding (none is a surrogate), whatever
    the clock shows.  Otherwise [__get_auth] raises [UnicodeEncodeError], and
    so does every request, before anything is handed to the endpoint. *)
Theorem get_auth_needs_encodable_credentials self w :
  let me := store w self in
  let encodable_credentials :=
    forallb encodable (WAPI.__key me) && forallb encodable (WAPI.__user me) in
  (encodable_credentials = true <-> exists d, fst (__get_auth self w) = Ok d) /\
  (encodable_credentials = false ->
   fst (__get_auth self w) = Raise UnicodeEncodeError /\
   forall command data command_id,
     fst (make_request self command data command_id w) = Raise UnicodeEncodeError /\
     posted (snd (make_request self command data command_id w)) = posted w).
Proof.
  cbv zeta.
  assert (Hcases :
    (forallb encodable (WAPI.__key (store w self))
     && forallb encodable (WAPI.__user (store w self)) = true ->
     exists d, fst (__get_auth self w) = Ok d) /\
    (forallb encodable (WAPI.__key (store w self))
     && forallb encodable (WAPI.__user (store w self)) = false ->
     fst (__get_auth self w) = Raise UnicodeEncodeError)).
  { rewrite get_auth_chain. unfold auth_digest, sha1_hex.
    destruct (encode_utf8_encodable (WAPI.__key (store w self))) as [Hk Hkbad].
    destruct (forallb encodable (WAPI.__key (store w self))); cbn [andb].
    - destruct (Hk eq_refl) as [kb ->]. cbn [rbind].
      match goal with |- context [encode_utf8 ?t] =>
        destruct (encode_utf8_encodable t) as [Hu Hubad];
        assert (Ht : forallb encodable t
                     = forallb encodable (WAPI.__user (store w self)))
      end.
      { rewrite !forallb_app.
        rewrite (lower_hex_encodable _ (proj2 (hexdigest_shape kb))).
        unfold strftime_H. rewrite pad2_encodable. now rewrite andb_true_r. }
      rewrite Ht in Hu, Hubad. split.
      + intro H. destruct (Hu H) as [bs ->]. cbn [rbind]. eauto.
      + intro H. now rewrite (Hubad H).
    - rewrite (Hkbad eq_refl). split; [discriminate|reflexivity]. }
  destruct Hcases as [Hok Hbad]. split; [split|].
  - exact Hok.
  - intros [d Hd].
    destruct (forallb encodable (WAPI.__key (store w self))
              && forallb encodable (WAPI.__user (store w self))); [reflexivity|].
    rewrite (Hbad eq_refl) in Hd. discriminate.
  - intro H. split; [now apply Hbad|].
    intros command data command_id. apply make_request_no_auth. now apply Hbad.
Qed.

(** ** The snapshot of all domains *)

Lemma make_request_returned_posts self command data command_id w r w' :
  make_request self command data command_id w = (Ok r, w') ->
  (exists doc, posted w' = doc :: posted w) /\ store w' = store w.
Proof.
  intro H. split.
  - destruct (fst (__get_auth self w)) as [auth|e] eqn:Ha.
    + destruct (make_request_run self command data command_id w auth Ha) as [_ Hp].
      rewrite H in Hp. cbn in Hp. eauto.
    + destruct (make_request_no_auth self command data command_id w e Ha) as [Hr _].
      rewrite H in Hr. discriminate.
  - pose proof (quiet_make_request self command data command_id w) as (Hs & _).
    now rewrite H in Hs.
Qed.

Lemma records_as_dict_listed d w it w' :
  records_as_dict d w = (Ok it, w') -> stopped it = None ->
  (exists doc, posted w' = doc :: posted w) /\ store w' = store w.
Proof.
  intros H Hstop.
  pose proof (run_is_its_request (Records_as_dict d) w _ _ _ _ eq_refl) as Hw.
  cbn [run] in Hw. rewrite H in Hw. cbn [snd] in Hw.
  unfold records_as_dict, records, bind in H.
  destruct (make_request _ _ _ _ w) as [[r|e] w1] eqn:E.
  - apply make_request_returned_posts in E. now subst w'.
  - injection H as <- _. discriminate.
Qed.

Lemma snapshot_listed (ds : list WAPIDomain.t) w entries w' :
  snapshot ds w = (Ok entries, w') ->
  map fst entries = map domain_name ds /\
  length (posted w') = (length (posted w) + length ds)%nat /\
  store w' = store w.
Proof.
  revert w entries. induction ds as [|d ds IH]; intros w entries; cbn [snapshot].
  - intro H. injection H as <- <-. cbn. now rewrite Nat.add_0_r.
  - unfold bind at 1.
    destruct (records_as_dict d w) as [[it|e] w1] eqn:E; [|discriminate].
    unfold bind at 1, lift at 1, to_list.
    destruct (stopped it) eqn:Hstop; [discriminate|].
    unfold bind at 1, lift at 1.
    destruct (hashable (domain_name d)); [|discriminate].
    unfold bind at 1.
    destruct (snapshot ds w1) as [[more|e] w2] eqn:E2; [|discriminate].
    cbn [ret]. intro H. injection H as <- <-.
    destruct (IH _ _ E2) as (Hkeys & Hposted & Hstore).
    destruct (records_as_dict_listed _ _ _ _ E Hstop) as [[doc Hdoc] Hs].
    cbn [map fst length]. rewrite Hkeys, Hposted, Hdoc, Hstore, Hs. cbn [length].
    repeat split. lia.
Qed.

(** X9.  When [domains_as_dict] returns, the generator of the domains ended
    without an exception, one entry was stored per listed domain, in order
    and under its name, and the endpoint was asked once for the domains and
    once for the rows of each: one request more than entries were stored.  No
    client object has changed. *)
Theorem domains_as_dict_returns self w entries w' :
  domains_as_dict self w = (Ok entries, w') ->
  exists it w1,
    domains self w = (Ok it, w1) /\
    stopped it = None /\
    map fst entries = map domain_name (items it) /\
    length (posted w') = (length (posted w) + 1 + length entries)%nat /\
    store w' = store w.
Proof.
  unfold domains_as_dict, bind.
  destruct (domains self w) as [[it|e] w1] eqn:Ed; [|discriminate].
  destruct (snapshot (items it) w1) as [[es|e] w2] eqn:Es; [|discriminate].
  destruct (stopped it) as [e|] eqn:Hstop; [discriminate|].
  cbn [ret]. intro H. injection H as <- <-.
  exists it, w1. destruct (snapshot_listed _ _ _ _ Es) as (Hkeys & Hposted & Hstore).
  assert (Hlist : (exists doc, posted w1 = doc :: posted w) /\ store w1 = store w).
  { unfold domains in Ed.
    destruct (make_request _ _ _ _ w) as [[r|e] w0] eqn:E.
    - injection Ed as _ <-. now apply make_request_returned_posts in E.
    - injection Ed as <- _. discriminate. }
  destruct Hlist as [[doc Hdoc] Hs].
  repeat split; try assumption.
  - rewrite Hposted, Hdoc. cbn [length].
    rewrite <- (length_map fst es), Hkeys, length_map. lia.
  - congruence.
Qed.

(** ** A timestamp, written and read back *)

(** Case analysis on an integer below 64. *)
Ltac below_64 n :=
  destruct n as [|n|n];
  [ | do 6 (try destruct n as [n|n|]) | ]; try lia.

Lemma pad2_starts_with_digit (n : Z) (rest : pystr) :
  (0 <= n < 60)%Z -> starts_with_digit (pad2 n ++ rest).
Proof. intro H. below_64 n; eexists _, _; split; reflexivity. Qed.

Lemma pad2_ascii (n : Z) : (0 <= n < 60)%Z -> forallb is_ascii (pad2 n) = true.
Proof. intro H. below_64 n; reflexivity. Qed.

Lemma pad2_value (n : Z) : (0 <= n < 60)%Z -> group_value (pad2 n) = n.
Proof. intro H. below_64 n; reflexivity. Qed.

Lemma re_lit_separates (c : N) (rest : pystr) :
  is_digit c = false -> separates (re_lit c) [c] rest.
Proof.
  intro Hc. split.
  - unfold re_lit, alternatives, char. cbn. now rewrite N.eqb_refl.
  - intros s (d & r & -> & Hd). unfold re_lit, alternatives, char. cbn.
    destruct (N.eqb_spec c d) as [->|]; [congruence|reflexivity].
Qed.

Lemma digit_not_space (c : N) : is_digit c = true -> is_space c = false.
Proof.
  unfold is_digit, is_space, in_range. intro H.
  apply andb_true_iff in H as [H1 H2]. apply N.leb_le in H1, H2.
  apply orb_false_iff. split; apply andb_false_iff.
  - right. apply N.leb_gt. lia.
  - right. apply N.leb_gt. lia.
Qed.

Lemma spaces_separates (rest : pystr) :
  starts_with_digit rest -> separates spaces [32] rest.
Proof.
  intros (c & r & -> & Hc). split.
  - cbn. now rewrite (digit_not_space c Hc).
  - intros s (d & r' & -> & Hd). cbn. now rewrite (digit_not_space d Hd).
Qed.

Ltac takes_by_cases n :=
  intros H rest; below_64 n; eexists; (split; [reflexivity|]);
  repeat (constructor; [eexists _, _; split; reflexivity|]); constructor.

Lemma re_m_takes (n : Z) : (1 <= n <= 12)%Z -> takes re_m (pad2 n).
Proof. takes_by_cases n. Qed.

Lemma re_d_takes (n : Z) : (1 <= n <= 31)%Z -> takes re_d (pad2 n).
Proof. takes_by_cases n. Qed.

Lemma re_H_takes (n : Z) : (0 <= n < 24)%Z -> takes re_H (pad2 n).
Proof. takes_by_cases n. Qed.

Lemma re_M_takes (n : Z) : (0 <= n < 60)%Z -> takes re_M (pad2 n).
Proof. takes_by_cases n. Qed.

Lemma re_S_takes (n : Z) : (0 <= n < 60)%Z -> takes re_S (pad2 n).
Proof. takes_by_cases n. Qed.

Lemma re_Y_takes (a b c d : N) :
  is_digit a = true -> is_digit b = true -> is_digit c = true ->
  is_digit d = true -> takes re_Y [a; b; c; d].
Proof.
  intros Ha Hb Hc Hd rest. exists []. split; [|constructor].
  unfold re_Y, alternatives, digit. cbn. now rewrite Ha, Hb, Hc, Hd.
Qed.

(** A group and the separator after it leave one way on. *)
Lemma and_then_group (p q : matcher) (gs : list pystr) (txt sep rest : pystr) :
  takes p txt -> separates q sep rest ->
  and_then false q (and_then true p [(gs, txt ++ sep ++ rest)])
  = [(gs ++ [txt], rest)].
Proof.
  intros Hp [Hq Hnone]. destruct (Hp (sep ++ rest)) as (others & Hm & Hothers).
  unfold and_then at 2. cbn [flat_map fst snd]. rewrite Hm, app_nil_r.
  cbn [map fst snd]. unfold and_then. cbn [flat_map fst snd].
  rewrite Hq. cbn [map app fst snd]. f_equal. clear Hm.
  induction Hothers as [|mr others Hmr _ IH]; [reflexivity|].
  cbn [map flat_map fst snd]. rewrite (Hnone _ Hmr). exact IH.
Qed.

Lemma year_prints_all (y : Z) : (1000 <= y <= 9999)%Z -> year_prints y = true.
Proof.
  intro H.
  assert (Hall : forallb year_prints
                   (map Z.of_nat (seq (Z.to_nat 1000) (Z.to_nat 9000))) = true)
    by (vm_compute; reflexivity).
  rewrite forallb_forall in Hall. apply Hall.
  apply in_map_iff. exists (Z.to_nat y). split; [lia|].
  apply in_seq. lia.
Qed.

(** [strptime] reads what [strftime] writes. *)
Lemma strptime_strftime (t : datetime) :
  valid_timestamp t -> strptime (JStr (strftime t)) = Ok t.
Proof.
  destruct t as [y m d H M S us].
  unfold valid_timestamp. cbn [year month day hour minute second microsecond].
  intros (Hy & Hm & Hd & HH & HM & HS & ->).
  assert (Hdmax : (days_in_month y m <= 31)%Z).
  { unfold days_in_month.
    repeat match goal with |- context [if ?b then _ else _] => destruct b end; lia. }
  pose proof (year_prints_all y Hy) as Hyear. unfold year_prints in Hyear.
  unfold strftime, strftime_Y. cbn [year month day hour minute second].
  replace (1000 <=? y)%Z with true by (symmetry; apply Z.leb_le; lia).
  destruct (str_of_Z y) as [|a [|b [|c [|e [|]]]]]; try discriminate.
  apply andb_true_iff in Hyear as [Hyear Hval].
  apply andb_true_iff in Hyear as [Hyear He].
  apply andb_true_iff in Hyear as [Hyear Hc].
  apply andb_true_iff in Hyear as [Ha Hb].
  apply Z.eqb_eq in Hval.
  assert (Hascii : forall c0, is_digit c0 = true -> is_ascii c0 = true).
  { intros c0 H0. unfold is_digit in H0. apply andb_true_iff in H0 as [_ H0].
    apply N.leb_le in H0. apply N.ltb_lt. lia. }
  assert (Hsep : forall k, lit k = [45] \/ lit k = [58] \/ lit k = [32] ->
                           forallb is_ascii (lit k) = true).
  { intros k [->|[->| ->]]; reflexivity. }
  unfold strptime.
  replace (forallb is_ascii _) with true.
  2:{ symmetry. rewrite !forallb_app.
      rewrite !pad2_ascii by lia. cbn [forallb].
      rewrite (Hascii a Ha), (Hascii b Hb), (Hascii c Hc), (Hascii e He).
      reflexivity. }
  unfold strptime_ascii, re_date.
  change (lit "-") with [45]. change (lit ":") with [58]. change (lit " ") with [32].
  rewrite (and_then_group re_Y (re_lit 45) [] [a; b; c; e] [45]);
    [|now apply re_Y_takes|now apply re_lit_separates].
  rewrite (and_then_group re_m (re_lit 45) _ (pad2 m) [45]);
    [|apply re_m_takes; lia|now apply re_lit_separates].
  rewrite (and_then_group re_d spaces _ (pad2 d) [32]);
    [|apply re_d_takes; lia
     |apply spaces_separates, pad2_starts_with_digit; lia].
  rewrite (and_then_group re_H (re_lit 58) _ (pad2 H) [58]);
    [|apply re_H_takes; lia|now apply re_lit_separates].
  rewrite (and_then_group re_M (re_lit 58) _ (pad2 M) [58]);
    [|apply re_M_takes; lia|now apply re_lit_separates].
  destruct (re_S_takes S HS []) as (others & HmS & _). rewrite app_nil_r in HmS.
  unfold and_then. cbn [flat_map fst snd]. rewrite HmS. cbn [map app fst snd].
  rewrite Hval, !pad2_value by lia.
  replace ((1 <=? y) && (d <=? days_in_month y m) && (S <=? 59))%Z with true;
    [reflexivity|].
  symmetry. rewrite !andb_true_iff, !Z.leb_le. lia.
Qed.

(** X10.  What [records_as_dict] writes of a record reads back: with a
    timestamp of the calendar from the year 1000 on, the text under
    [changed] parses with [date_format] to the record's timestamp, the text
    under [record_type] decodes to the record's type, and [id] and [ttl] are
    the record's integers. *)
Theorem written_record_reads_back (x : WAPIDomainRecord.t) :
  valid_timestamp (WAPIDomainRecord.changed x) ->
  rbind (subscript (record_as_dict x) (lit "changed")) strptime
    = Ok (WAPIDomainRecord.changed x) /\
  rbind (subscript (record_as_dict x) (lit "record_type")) __str_to_record_type
    = Ok (WAPIDomainRecord.record_type x) /\
  rbind (subscript (record_as_dict x) (lit "id")) py_int
    = Ok (WAPIDomainRecord.id x) /\
  rbind (subscript (record_as_dict x) (lit "ttl")) py_int
    = Ok (WAPIDomainRecord.ttl x).
Proof.
  intro Hvalid. destruct x as [id name ttl record_type content changed comment].
  cbn [WAPIDomainRecord.changed WAPIDomainRecord.record_type WAPIDomainRecord.id
       WAPIDomainRecord.ttl] in *.
  split; [|split; [|split]].
  - change (strptime (JStr (strftime changed)) = Ok changed).
    now apply strptime_strftime.
  - change (__str_to_record_type (JStr (WAPIDomainRecordType.value record_type))
            = Ok record_type).
    now destruct record_type.
  - reflexivity.
  - reflexivity.
Qed.

(** ** The test flag of a client and its handles *)

(** X11.  After [set_test_mode(enabled)] on a client, the next request that
    goes through that client, made by the client or by any domain handle
    that refers to it, carries the flag as [test: 1] or [test: 0], and the
    client's user. *)
Theorem test_mode_reaches_every_request (op : operation) (w : world)
    self enabled command data command_id auth :
  request_made op = Some (self, command, data, command_id) ->
  let w1 := run (Set_test_mode self enabled) w in
  fst (__get_auth self w1) = Ok auth ->
  exists doc,
    posted (run op w1) = doc :: posted w /\
    rbind (subscript doc (lit "request")) (fun inner => subscript inner (lit "test"))
      = Ok (JInt (if enabled then 1 else 0)) /\
    rbind (subscript doc (lit "request")) (fun inner => subscript inner (lit "user"))
      = Ok (JStr (WAPI.__user (store w self))).
Proof.
  intros Hop w1 Ha.
  rewrite (run_is_its_request _ _ _ _ _ _ Hop).
  destruct (make_request_run self command data command_id w1 auth Ha) as [_ Hp].
  eexists. split; [exact Hp|].
  subst w1. rewrite run_set_test_mode, Nat.eqb_refl. split; reflexivity.
Qed.

(** ** What the date pattern lets through *)

Lemma and_then_in keep (p : matcher) acc gs r :
  In (gs, r) (and_then keep p acc) ->
  exists gs0 r0 txt,
    In (gs0, r0) acc /\ In (txt, r) (p r0) /\
    gs = if keep then gs0 ++ [txt] else gs0.
Proof.
  unfold and_then. intro H. apply in_flat_map in H as ([gs0 r0] & Hacc & H).
  apply in_map_iff in H as ([txt r'] & Heq & Hp). cbn [fst snd] in *.
  injection Heq as <- <-. exists gs0, r0, txt. auto.
Qed.

Lemma classes_matched (cs : list (N -> bool)) (s txt r : pystr) :
  classes cs s = Some (txt, r) -> Forall2 (fun p c => p c = true) cs txt.
Proof.
  revert s txt r. induction cs as [|p cs IH]; intros s txt r; cbn [classes].
  - intro H. injection H as <- _. constructor.
  - destruct s as [|c s]; [discriminate|].
    destruct (p c) eqn:Hp; [|discriminate].
    destruct (classes cs s) as [[m r']|] eqn:E; [|discriminate].
    intro H. injection H as <- _. constructor; eauto.
Qed.

Lemma alternatives_in (alts : list (list (N -> bool))) (s txt r : pystr) :
  In (txt, r) (alternatives alts s) ->
  exists alt, In alt alts /\ Forall2 (fun p c => p c = true) alt txt.
Proof.
  unfold alternatives. intro H. apply in_flat_map in H as (alt & Halt & H).
  destruct (classes alt s) as [[m r']|] eqn:E; [|contradiction].
  destruct H as [H|[]]. injection H as -> ->.
  exists alt. split; [assumption|]. eapply classes_matched; eassumption.
Qed.

Lemma in_digits (c : N) : is_digit c = true -> In c digits.
Proof.
  intro H. unfold is_digit in H. apply andb_true_iff in H as [H1 H2].
  apply N.leb_le in H1, H2. unfold digits.
  destruct c as [|c]; [lia|].
  do 6 (try destruct c as [c|c|]); try lia; cbn [In]; tauto.
Qed.

Lemma four_digits_within (a b c d : N) :
  is_digit a = true -> is_digit b = true -> is_digit c = true ->
  is_digit d = true -> group_within 0 9999 [a; b; c; d] = true.
Proof.
  intros Ha Hb Hc Hd.
  assert (Hall : forallb (group_within 0 9999) four_digit_texts = true)
    by (vm_compute; reflexivity).
  rewrite forallb_forall in Hall. apply Hall. unfold four_digit_texts.
  apply in_flat_map. exists a. split; [now apply in_digits|].
  apply in_flat_map. exists b. split; [now apply in_digits|].
  apply in_flat_map. exists c. split; [now apply in_digits|].
  apply (in_map (fun d0 => [a; b; c; d0])). now apply in_digits.
Qed.

(** Takes a match of one of the alternatives apart, down to its characters
    and their bounds, and settles the group's bounds by cases. *)
Ltac by_alternatives H :=
  apply alternatives_in in H as (alt & Halt & Hm);
  cbn [In] in Halt;
  repeat match goal with
         | Halt : _ \/ _ |- _ => destruct Halt as [<-|Halt]
         | Halt : False |- _ => contradiction
         end;
  repeat match goal with
         | Hm : Forall2 _ (_ :: _) _ |- _ => inversion Hm; subst; clear Hm
         | Hm : Forall2 _ [] _ |- _ => inversion Hm; subst; clear Hm
         end;
  repeat match goal with
         | Hc : char ?k ?c = true |- _ =>
             apply N.eqb_eq in Hc; subst c
         | Hc : range ?lo ?hi ?c = true |- _ =>
             unfold range, in_range in Hc;
             apply andb_true_iff in Hc as [? ?]
         | Hc : digit ?c = true |- _ =>
             unfold digit, is_digit in Hc;
             apply andb_true_iff in Hc as [? ?]
         end;
  repeat match goal with
         | Hc : (_ <=? _) = true |- _ => apply N.leb_le in Hc
         end;
  repeat match goal with
         | c : N |- _ =>
             destruct c as [|c]; [try lia|];
             do 6 (try destruct c as [c|c|]); try lia
         end;
  reflexivity.

Lemma re_m_within s txt r : In (txt, r) (re_m s) -> group_within 1 12 txt = true.
Proof. intro H. unfold re_m in H. by_alternatives H. Qed.

Lemma re_d_within s txt r : In (txt, r) (re_d s) -> group_within 1 31 txt = true.
Proof. intro H. unfold re_d in H. by_alternatives H. Qed.

Lemma re_H_within s txt r : In (txt, r) (re_H s) -> group_within 0 23 txt = true.
Proof. intro H. unfold re_H in H. by_alternatives H. Qed.

Lemma re_M_within s txt r : In (txt, r) (re_M s) -> group_within 0 59 txt = true.
Proof. intro H. unfold re_M in H. by_alternatives H. Qed.

Lemma re_S_within s txt r : In (txt, r) (re_S s) -> group_within 0 61 txt = true.
Proof. intro H. unfold re_S in H. by_alternatives H. Qed.

Lemma re_Y_within s txt r : In (txt, r) (re_Y s) -> group_within 0 9999 txt = true.
Proof.
  intro H. unfold re_Y in H.
  apply alternatives_in in H as (alt & [<-|[]] & Hm).
  repeat match goal with
         | Hm : Forall2 _ (_ :: _) _ |- _ => inversion Hm; subst; clear Hm
         | Hm : Forall2 _ [] _ |- _ => inversion Hm; subst; clear Hm
         end.
  now apply four_digits_within.
Qed.

Lemma within_bounds lo hi txt :
  group_within lo hi txt = true -> (lo <= group_value txt <= hi)%Z.
Proof.
  unfold group_within. intro H. apply andb_true_iff in H as [H1 H2].
  apply Z.leb_le in H1, H2. lia.
Qed.

(** What [strptime] returns of an ASCII text is a timestamp of the calendar. *)
Lemma strptime_ascii_calendar (s : pystr) (t : datetime) :
  strptime_ascii s = Ok t ->
  (1 <= year t <= 9999 /\ 1 <= month t <= 12 /\
   1 <= day t <= days_in_month (year t) (month t) /\
   0 <= hour t < 24 /\ 0 <= minute t < 60 /\ 0 <= second t < 60 /\
   microsecond t = 0)%Z.
Proof.
  unfold strptime_ascii.
  destruct (re_date s) as [|[gs r] tail] eqn:E; [discriminate|].
  destruct gs as [|gY [|gm [|gd [|gH [|gM [|gS [|]]]]]]]; try discriminate.
  destruct r; [|discriminate].
  assert (Hin : In ([gY; gm; gd; gH; gM; gS], []) (re_date s))
    by (rewrite E; now left).
  unfold re_date in Hin.
  apply and_then_in in Hin as (g1 & r1 & tS & Hin & HS & Hg1).
  apply and_then_in in Hin as (g2 & r2 & x2 & Hin & _ & Hg2).
  apply and_then_in in Hin as (g3 & r3 & tM & Hin & HM & Hg3).
  apply and_then_in in Hin as (g4 & r4 & x4 & Hin & _ & Hg4).
  apply and_then_in in Hin as (g5 & r5 & tH & Hin & HH & Hg5).
  apply and_then_in in Hin as (g6 & r6 & x6 & Hin & _ & Hg6).
  apply and_then_in in Hin as (g7 & r7 & td & Hin & Hd & Hg7).
  apply and_then_in in Hin as (g8 & r8 & x8 & Hin & _ & Hg8).
  apply and_then_in in Hin as (g9 & r9 & tm & Hin & Hm & Hg9).
  apply and_then_in in Hin as (g10 & r10 & x10 & Hin & _ & Hg10).
  apply and_then_in in Hin as (g11 & r11 & tY & Hin & HY & Hg11).
  destruct Hin as [Hin|[]]. injection Hin as <- <-.
  subst g10 g9 g8 g7 g6 g5 g4 g3 g2 g1. cbn [app] in Hg1.
  injection Hg1 as -> -> -> -> -> ->.
  apply re_Y_within, within_bounds in HY. apply re_m_within, within_bounds in Hm.
  apply re_d_within, within_bounds in Hd. apply re_H_within, within_bounds in HH.
  apply re_M_within, within_bounds in HM. apply re_S_within, within_bounds in HS.
  destruct ((1 <=? group_value tY) && (group_value td <=? days_in_month
              (group_value tY) (group_value tm)) && (group_value tS <=? 59))%Z
    eqn:Hok; [|discriminate].
  apply andb_true_iff in Hok as [Hok H3]. apply andb_true_iff in Hok as [H1 H2].
  apply Z.leb_le in H1, H2, H3.
  intro H. injection H as <-. cbn. lia.
Qed.

(** X12.  A row whose [changed_date] is an ASCII text decodes to a timestamp
    of the calendar: month 1 to 12, a day that the month has in that year,
    hour below 24, minute and second below 60, year 1 to 9999.  From the year
    1000 on, the text [records_as_dict] writes for it reads back to the same
    timestamp. *)
Theorem decoded_timestamp_is_calendar (row : json) (x : WAPIDomainRecord.t)
    (date : pystr) :
  __row_dict_to_row row = Ok x ->
  subscript row (lit "changed_date") = Ok (JStr date) ->
  forallb is_ascii date = true ->
  let t := WAPIDomainRecord.changed x in
  (1 <= year t <= 9999 /\ 1 <= month t <= 12 /\
   1 <= day t <= days_in_month (year t) (month t) /\
   0 <= hour t < 24 /\ 0 <= minute t < 60 /\ 0 <= second t < 60 /\
   microsecond t = 0)%Z /\
  ((1000 <= year t)%Z ->
   rbind (subscript (record_as_dict x) (lit "changed")) strptime = Ok t).
Proof.
  intros Hrow Hdate Hascii t.
  assert (Ht : strptime_ascii date = Ok t).
  { subst t. revert Hrow. unfold __row_dict_to_row. rewrite Hdate.
    repeat match goal with
           | |- rbind ?c _ = Ok _ -> _ =>
               destruct c eqn:?; cbn [rbind]; [|discriminate]
           end.
    intro Hrow. injection Hrow as <-. cbn [WAPIDomainRecord.changed].
    match goal with
    | E : strptime (JStr date) = Ok _ |- _ =>
        unfold strptime in E; rewrite Hascii in E; exact E
    end. }
  pose proof (strptime_ascii_calendar _ _ Ht) as Hcal.
  split; [exact Hcal|].
  intro Hyear.
  change (strptime (JStr (strftime t)) = Ok t).
  apply strptime_strftime. unfold valid_timestamp. lia.
Qed.

End Further.

(** * The further statements at work *)

(** A complete envelope with the code 1000 comes back as a response with its
    fields. *)
Lemma make_request_returns_exactly_example :
  exists r,
    fst (make_request (P := plain_platform) 0%nat (lit "ping") JNull None
           (world_of a_client (response_of (envelope_with (JInt 1000) JNull))))
      = Ok r /\
    WAPIResponse.command_id r = JStr (lit "ping") /\
    WAPIResponse.data r = JNull.
Proof.
  destruct (make_request_returns_exactly (P := plain_platform) _ _ _ _ _ _
              (answered_in_world_of (envelope_with (JInt 1000) JNull)))
    as [[_ Hreturns] Hfields].
  destruct Hreturns as [r Hr]; [split; [reflexivity|apply complete_envelope_with]|].
  exists r. split; [exact Hr|].
  destruct (Hfields r Hr) as (_ & _ & _ & Hid & _ & _ & Hdata & _).
  split; [|exact Hdata].
  assert (Hget : dict_get (envelope_with (JInt 1000) JNull) (lit "clTRID")
                 = Some (JStr (lit "ping"))) by reflexivity.
  rewrite Hget in Hid. now injection Hid as <-.
Defined.

(** A refusal fails [commit] and is an answer for [ping]. *)
Lemma failure_is_the_requests_example :
  let w := world_of a_client (response_of (envelope_with (JStr (lit "2999")) JNull)) in
  (exists msg, failure (P := plain_platform) (Commit example_domain) w
               = Some (WAPIError msg)) /\
  failure (P := plain_platform) (Ping 0%nat) w = None.
Proof.
  cbv zeta. split.
  - eexists.
    apply (proj1 (failure_is_the_requests (P := plain_platform)
                    (Commit example_domain) _ _ _ _ _ eq_refl)).
    vm_compute. reflexivity.
  - apply (proj1 (failure_is_the_requests (P := plain_platform)
                    (Ping 0%nat) _ _ _ _ _ eq_refl)
             (WAPIError (lit "WAPI error: "
                         ++ json_dumps (JObj (envelope_with (JStr (lit "2999")) JNull))))).
    vm_compute. reflexivity.
Defined.

(** Of three rows with the second of an unknown type, one record is
    produced before the iteration stops. *)
Lemma records_stop_at_first_bad_row_example :
  exists it,
    fst (records (P := plain_platform) example_domain
           (world_with [example_row (lit "a"); bad_row; example_row (lit "A")]))
      = Ok it /\
    items it = [example_record] /\
    stopped it = Some (WAPIError (lit "Unknown record type 'CNAMEX'")).
Proof.
  destruct (records_stop_at_first_bad_row (P := plain_platform) example_domain
              (world_with [example_row (lit "a"); bad_row; example_row (lit "A")])
              (response_with (JInt 1000)
                 (JObj [(lit "row",
                         JList [example_row (lit "a"); bad_row; example_row (lit "A")])]))
              (snd (make_request (P := plain_platform) 0%nat (lit "dns-rows-list")
                      (JObj [(lit "domain", JStr (lit "example.com"))]) None
                      (world_with
                         [example_row (lit "a"); bad_row; example_row (lit "A")])))
              [example_row (lit "a"); bad_row; example_row (lit "A")])
    as (it & Hrec & _).
  - vm_compute. reflexivity.
  - reflexivity.
  - discriminate.
  - exists it. rewrite Hrec. split; [reflexivity|].
    assert (Hit : Ok it = Ok (lazy_map (__row_dict_to_row (P := plain_platform))
                               [example_row (lit "a"); bad_row; example_row (lit "A")])).
    { change (Ok it) with (fst (Ok it, snd (make_request (P := plain_platform) 0%nat
                (lit "dns-rows-list")
                (JObj [(lit "domain", JStr (lit "example.com"))]) None
                (world_with [example_row (lit "a"); bad_row; example_row (lit "A")])))).
      rewrite <- Hrec. vm_compute. reflexivity. }
    injection Hit as ->. split; vm_compute; reflexivity.
Defined.

(** The one domain of the provider, as listed. *)
Lemma listed_domains_follow_entries_example :
  exists it,
    fst (domains (P := plain_platform) 0%nat (world_with [])) = Ok it /\
    items it = [example_domain] /\ stopped it = None.
Proof.
  destruct (listed_domains_follow_entries (P := plain_platform) 0%nat (world_with [])
              (response_with (JInt 1000)
                 (JObj [(lit "domain",
                         JObj [(lit "0",
                                JObj [(lit "name", JStr (lit "example.com"));
                                      (lit "type", JStr (lit "primary"));
                                      (lit "status", JStr (lit "active"))])])]))
              (snd (make_request (P := plain_platform) 0%nat (lit "dns-domains-list")
                      JNull None (world_with [])))
              [(lit "0",
                JObj [(lit "name", JStr (lit "example.com"));
                      (lit "type", JStr (lit "primary"));
                      (lit "status", JStr (lit "active"))])])
    as (it & Hdom & _).
  - vm_compute. reflexivity.
  - reflexivity.
  - discriminate.
  - exists it. rewrite Hdom. split; [reflexivity|].
    assert (Hit : Ok it = fst (domains (P := plain_platform) 0%nat (world_with [])))
      by now rewrite Hdom.
    vm_compute in Hit. injection Hit as ->. split; reflexivity.
Defined.

(** An empty row lacks its first field. *)
Lemma row_decoding_failures_example :
  __row_dict_to_row (P := plain_platform) (JObj []) = Raise (KeyError (lit "ID")) /\
  exists kvs, JObj [] = JObj kvs /\ dict_get kvs (lit "ID") = None.
Proof.
  split; [reflexivity|].
  destruct (row_decoding_failures (P := plain_platform) (JObj [])
              (KeyError (lit "ID")) eq_refl) as (_ & Hkey & _).
  now destruct (Hkey (lit "ID") eq_refl) as [_ H].
Defined.

(** The snapshot of the provider's one domain with one row: two requests. *)
Lemma domains_as_dict_returns_example :
  fst (domains_as_dict (P := plain_platform) 0%nat
         (world_with [example_row (lit "a")]))
    = Ok [(JStr (lit "example.com"),
           [record_as_dict (P := plain_platform) example_record])] /\
  length (posted (snd (domains_as_dict (P := plain_platform) 0%nat
                         (world_with [example_row (lit "a")])))) = 2%nat.
Proof.
  assert (H : domains_as_dict (P := plain_platform) 0%nat
                (world_with [example_row (lit "a")])
              = (Ok [(JStr (lit "example.com"),
                      [record_as_dict (P := plain_platform) example_record])],
                 snd (domains_as_dict (P := plain_platform) 0%nat
                        (world_with [example_row (lit "a")])))).
  { vm_compute. reflexivity. }
  destruct (domains_as_dict_returns (P := plain_platform) _ _ _ _ H)
    as (it & w1 & _ & _ & _ & Hposted & _).
  split; [now rewrite H|exact Hposted].
Defined.

(** The example record's dictionary reads back. *)
Lemma written_record_reads_back_example :
  rbind (subscript (record_as_dict (P := plain_platform) example_record)
           (lit "changed")) (strptime (P := plain_platform))
    = Ok midnight.
Proof.
  apply (written_record_reads_back (P := plain_platform) example_record).
  unfold valid_timestamp. cbn. lia.
Defined.

(** A handle's commit after the client was put in test mode. *)
Lemma test_mode_reaches_every_request_example :
  exists doc,
    posted (run (P := plain_platform) (Commit example_domain)
              (run (P := plain_platform) (Set_test_mode 0%nat true) (world_with [])))
      = [doc] /\
    rbind (subscript doc (lit "request")) (fun inner => subscript inner (lit "test"))
      = Ok (JInt 1).
Proof.
  destruct (test_mode_reaches_every_request (P := plain_platform)
              (Commit example_domain) (world_with []) 0%nat true _ _ _
              (SHA1.hexdigest
                 (lit "user@example.com"
                  ++ lit "a62f2225bf70bfaccbc7f1ef2a397836717377de" ++ lit "00"))
              eq_refl)
    as (doc & Hposted & Htest & _).
  - vm_compute. reflexivity.
  - exists doc. split; [exact Hposted|exact Htest].
Defined.

(** The example row's timestamp. *)
Lemma decoded_timestamp_is_calendar_example :
  rbind (subscript (record_as_dict (P := plain_platform) example_record)
           (lit "changed")) (strptime (P := plain_platform))
    = Ok (WAPIDomainRecord.changed example_record).
Proof.
  destruct (decoded_timestamp_is_calendar (P := plain_platform)
              (example_row (lit "a")) example_record (lit "2024-01-01 00:00:00"))
    as [_ H].
  - vm_compute. reflexivity.
  - reflexivity.
  - reflexivity.
  - apply H. cbn. lia.
Defined.
